(** * website-view-counter: a per-tenant page view counter

    A shallow embedding of [src/index.ts] (the Worker that routes requests)
    and [src/ViewCounterDO.ts] (the Durable Object that owns one counter),
    followed by the properties of the counter design that hold of them.

    Conventions of the embedding.
    - A JavaScript string is a [string] holding its UTF-8 text.
    - The counter is a JavaScript number that only ever holds an integer
      (it starts at 0 and is changed by [++] alone); it is the [Z] of
      that integer, and [++] rounds as the addition of numbers does
      ([number_succ]): it is exact up to 2^53 and no further.
    - [await] is sequencing: every function below runs one request to
      completion on an explicit state. The lookups of a batch, which
      [Promise.all] awaits together, are made and write their entries in
      the order of the array; they are reads.
    - Reads and writes of the storage succeed; the failure that is kept is
      that of a call to an object, which is decided call by call
      ([fate]): the call is answered, or it rejects before the object
      runs, or it rejects after the object has run.
    - A JavaScript object used as a record ([results], a header bag) is an
      association list in insertion order.
    - The Durable Object namespace is a finite map from object names to
      object instances; a name that is absent has no instance and no
      stored record yet. *)

From Stdlib Require Import ZArith Ascii String.
From stdpp Require Import gmap strings list fin_maps.

Set Warnings "-register-all".

Local Open Scope Z_scope.
Local Open Scope string_scope.
Local Open Scope list_scope.

(** ** JavaScript values that cross the wire *)

(** A JSON document: what [request.json()] and [response.json()] yield and
    what [JSON.stringify] prints. *)
Inductive json : Type :=
  | JNull
  | JBool (b : bool)
  | JNum (n : Z)
  | JStr (s : string)
  | JArr (items : list json)
  | JObj (fields : list (string * json)).

(** The body of a [Response]: [null], a plain text, or the text
    [JSON.stringify j], kept as the document [j]. *)
Inductive ResponseBody : Type :=
  | BodyNull
  | BodyText (text : string)
  | BodyJson (j : json).

Record Response : Type := mkResponse {
  body : ResponseBody;
  status : Z;
  headers : list (string * string)
}.

(** [new Response(body, { headers })]: the status defaults to 200. *)
Definition new_Response (b : ResponseBody) (h : list (string * string)) : Response :=
  mkResponse b 200 h.

(** The body of a request as [request.json()] sees it: the parser either
    throws an error carrying a message or yields a document. *)
Inductive RequestBody : Type :=
  | Unparsable (message : string)
  | Parsed (j : json).

(** The parts of a [Request] the program reads: [request.method],
    [request.headers.get('Host')] ([None] is [null]),
    [new URL(request.url).pathname] and the body. *)
Record Request : Type := mkRequest {
  method : string;
  host : option string;
  pathname : string;
  payload : RequestBody
}.

(** [new Request(url, { method })]: no Host header and an empty body, which
    is not a JSON text. *)
Definition new_Request (path m : string) : Request :=
  mkRequest m None path (Unparsable "Unexpected end of JSON input").

(** ** Plain objects *)

Section PlainObject.
Context {V : Type}.

(** [o[k] = v]: an existing property keeps its place, a new one goes
    last. *)
Fixpoint obj_set (k : string) (v : V) (o : list (string * V)) : list (string * V) :=
  match o with
  | [] => [(k, v)]
  | (k', v') :: rest =>
      if String.eqb k' k then (k, v) :: rest else (k', v') :: obj_set k v rest
  end.

(** [o[k]], [None] when the property is absent. *)
Fixpoint obj_get (k : string) (o : list (string * V)) : option V :=
  match o with
  | [] => None
  | (k', v') :: rest => if String.eqb k' k then Some v' else obj_get k rest
  end.

(** [{ ...a, ...b }] *)
Definition obj_spread (a b : list (string * V)) : list (string * V) :=
  fold_left (fun o kv => obj_set (fst kv) (snd kv) o) b a.
End PlainObject.

(** ** Numbers *)

(** The number nearest to the integer [n], ties going to the even
    significand: every integer up to 2^53 in magnitude is a number; beyond,
    the numbers are [ulp] apart, [ulp] being 2, 4, 8, ... *)
Definition round_number (n : Z) : Z :=
  (if Z.abs n <=? 2 ^ 53 then n
   else
     let ulp := 2 ^ (Z.log2 (Z.abs n) - 52) in
     let q := n / ulp in
     let r := n mod ulp in
     if 2 * r <? ulp then q * ulp
     else if ulp <? 2 * r then (q + 1) * ulp
     else if Z.even q then q * ulp
     else (q + 1) * ulp)%Z.

(** [v++] on a number that holds the integer [v]: the new value. *)
Definition number_succ (v : Z) : Z := round_number (v + 1).

(** ** The Durable Object: [ViewCounterDurableObject] *)

Module ViewCounterDO.

(** An instance: the field [views] and the object's durable storage
    ([this.ctx.storage]), a map from storage keys to numbers. *)
Record t : Type := mk {
  views : Z;
  storage : gmap string Z
}.

(** [constructor]: [this.views = 0] over a storage that has no record. *)
Definition constructor : t := mk 0 ∅.

(** [headers] *)
Definition json_headers : list (string * string) :=
  [("Content-Type", "application/json")].

(** [JSON.stringify({ views: this.views })] *)
Definition views_json (v : Z) : json := JObj [("views", JNum v)].

(** [async fetch(request)] *)
Definition fetch (request : Request) (this : t) : Response * t :=
  if String.eqb (method request) "OPTIONS" then
    (new_Response BodyNull json_headers, this)
  else
    (* this.views = (await this.ctx.storage.get("views")) ?? 0 *)
    let this := mk (default 0 (storage this !! "views")) (storage this) in
    if String.eqb (method request) "POST" then
      (* this.views++ *)
      let this := mk (number_succ (views this)) (storage this) in
      (* await this.ctx.storage.put("views", this.views) *)
      let this := mk (views this) (<["views" := views this]> (storage this)) in
      (new_Response (BodyJson (views_json (views this))) json_headers, this)
    else if String.eqb (method request) "GET" then
      (new_Response (BodyJson (views_json (views this))) json_headers, this)
    else
      (mkResponse (BodyText "Method Not Allowed") 405 json_headers, this).

(** The durable value of the counter: the stored record, 0 when there is
    none. *)
Definition durable (this : t) : Z := default 0 (storage this !! "views").

End ViewCounterDO.

(** ** Strings *)

(** [path.startsWith('/')] *)
Definition startsWith_slash (path : string) : bool :=
  match path with
  | String c _ => Ascii.eqb c "/"%char
  | EmptyString => false
  end.

(** The one-byte white space and line terminators that [trim] removes:
    TAB, LF, VT, FF, CR and SPACE. *)
Definition ws1 (x : N) : bool :=
  ((9 <=? x) && (x <=? 13) || (x =? 32))%N.

(** The two-byte one: U+00A0. *)
Definition ws2 (x y : N) : bool :=
  ((x =? 194) && (y =? 160))%N.

(** The three-byte ones: U+1680, U+2000 to U+200A, U+2028, U+2029, U+202F,
    U+205F, U+3000 and U+FEFF. *)
Definition ws3 (x y z : N) : bool :=
  ((x =? 225) && (y =? 154) && (z =? 128)
   || (x =? 226) && (y =? 128)
        && ((128 <=? z) && (z <=? 138) || (z =? 168) || (z =? 169) || (z =? 175))
   || (x =? 226) && (y =? 129) && (z =? 159)
   || (x =? 227) && (y =? 128) && (z =? 128)
   || (x =? 239) && (y =? 187) && (z =? 191))%N.

(** [path.trim() === '']: the text has nothing but white space. *)
Fixpoint trim_is_empty (path : string) : bool :=
  match path with
  | EmptyString => true
  | String a rest =>
      if ws1 (N_of_ascii a) then trim_is_empty rest
      else
        match rest with
        | EmptyString => false
        | String b rest1 =>
            if ws2 (N_of_ascii a) (N_of_ascii b) then trim_is_empty rest1
            else
              match rest1 with
              | EmptyString => false
              | String c rest2 =>
                  if ws3 (N_of_ascii a) (N_of_ascii b) (N_of_ascii c)
                  then trim_is_empty rest2
                  else false
              end
        end
  end.

(** A header name as the [Headers] class keeps it: in lower case. *)
Definition lower_ascii (c : ascii) : ascii :=
  let n := N_of_ascii c in
  if ((65 <=? n) && (n <=? 90))%N then ascii_of_N (n + 32) else c.

Fixpoint lower (s : string) : string :=
  match s with
  | EmptyString => EmptyString
  | String c rest => String (lower_ascii c) (lower rest)
  end.

(** [Object.fromEntries(response.headers.entries())]: the names in lower
    case. (The iteration is also sorted by name; every response of the
    Durable Object has a single header.) *)
Definition headers_entries (h : list (string * string)) : list (string * string) :=
  obj_spread [] (map (fun kv => (lower (fst kv), snd kv)) h).

(** ** The Worker: [export default { fetch }] *)

Module Worker.

(** What becomes of one call of [stub.fetch]: it resolves with the
    object's response; or it rejects and the object has not run; or it
    rejects although the object has run. *)
Inductive Fate : Type :=
  | Delivered
  | Dropped
  | Lost.

(** [env]: its one binding [env.VIEW_COUNTER_DO], the Durable Object
    namespace.
    - [objects]: the instance behind each name, with its storage;
    - [calls]: the history of [stub.fetch] calls, as (name, method);
    - [fate]: what becomes of a call, given the number of calls made
      before it and the name it goes to. *)
Record Env : Type := mkEnv {
  objects : gmap string ViewCounterDO.t;
  fate : nat -> string -> Fate;
  calls : list (string * string)
}.

(** The response [stub.fetch] resolves with: a response to a HEAD request
    has no body. *)
Definition received (request : Request) (response : Response) : Response :=
  if String.eqb (method request) "HEAD"
  then mkResponse BodyNull (status response) (headers response)
  else response.

(** What a call of [fetch] comes to: a response, or an exception that
    leaves the handler. *)
Inductive Outcome : Type :=
  | Returned (response : Response)
  | Thrown.

(** The record stored for the counter named [name], if any. *)
Definition stored (env : Env) (name : string) : option Z :=
  objects env !! name ≫= fun this => ViewCounterDO.storage this !! "views".

(** The durable value of the counter named [name]: 0 when nothing is
    stored under that name. *)
Definition durable (env : Env) (name : string) : Z :=
  default 0 (stored env name).

(** [env.VIEW_COUNTER_DO.get(env.VIEW_COUNTER_DO.idFromName(name)).fetch(request)]:
    the call is recorded; unless the call is dropped, the object is
    created by its constructor when the name is new, handles the request
    and keeps its new state. *)
Definition stub_fetch (name : string) (request : Request) (env : Env)
  : option Response * Env :=
  let history := (calls env ++ [(name, method request)])%list in
  let this := default ViewCounterDO.constructor (objects env !! name) in
  let '(response, this) := ViewCounterDO.fetch request this in
  match fate env (length (calls env)) name with
  | Delivered =>
      (Some (received request response),
       mkEnv (<[name := this]> (objects env)) (fate env) history)
  | Dropped => (None, mkEnv (objects env) (fate env) history)
  | Lost => (None, mkEnv (<[name := this]> (objects env)) (fate env) history)
  end.

(** [headers]: the cross-origin headers. *)
Definition cors_headers : list (string * string) :=
  [("Access-Control-Allow-Origin", "*");
   ("Access-Control-Allow-Methods", "GET, POST, OPTIONS");
   ("Access-Control-Allow-Headers", "Content-Type")].

(** [{ error: message }] *)
Definition error_json (message : string) : json := JObj [("error", JStr message)].

(** The 400 responses: a JSON error under the JSON content type and the
    cross-origin headers. *)
Definition bad_request (message : string) : Response :=
  mkResponse (BodyJson (error_json message)) 400
    (obj_spread [("Content-Type", "application/json")] cors_headers).

(** [path.startsWith('/') ? path : `/${path}`] *)
Definition articlePath_of (path : string) : string :=
  if startsWith_slash path then path else "/" +:+ path.

(** [`${requestHost}${articlePath}`] *)
Definition doIdName (requestHost articlePath : string) : string :=
  requestHost +:+ articlePath.

(** [typeof path !== 'string' || path.trim() === ''] *)
Definition bad_path (path : json) : bool :=
  match path with
  | JStr s => trim_is_empty s
  | _ => true
  end.

Definition format_error : string :=
  "Invalid request format. Expected an array of path strings, e.g., ['/path1', '/path2'].".

(** The [try] block of the batch branch: the error message that is
    caught, or [articlePaths]. *)
Definition read_articlePaths (b : RequestBody) : string + list json :=
  match b with
  | Unparsable message => inl message
  | Parsed (JArr articlePaths) =>
      if existsb bad_path articlePaths then inl format_error else inr articlePaths
  | Parsed _ => inl format_error
  end.

(** The texts of an array whose items have passed the check above. *)
Definition path_strings (articlePaths : list json) : list string :=
  omap (fun path => match path with JStr s => Some s | _ => None end) articlePaths.

(** The value of a property of [results]. *)
Inductive property : Type :=
  | Undefined
  | Value (j : json).

(** [await response.json()]: [None] when it throws. *)
Definition response_json (response : Response) : option json :=
  match body response with
  | BodyJson j => Some j
  | _ => None
  end.

(** [data.views]: [None] when it throws ([data] is [null]). *)
Definition data_views (data : json) : option property :=
  match data with
  | JNull => None
  | JObj fields =>
      Some (match obj_get "views" fields with
            | Some v => Value v
            | None => Undefined
            end)
  | _ => Some Undefined
  end.

(** The callback of [articlePaths.map]: one lookup, writing its entry of
    [results]. *)
Definition lookup (requestHost : string)
    (st : list (string * property) * Env) (path : string)
  : list (string * property) * Env :=
  let '(results, env) := st in
  let articlePath := articlePath_of path in
  let doIdName := doIdName requestHost articlePath in
  match stub_fetch doIdName (new_Request "/get" "GET") env with
  | (Some response, env) =>
      match response_json response ≫= data_views with
      | Some views => (obj_set articlePath views results, env)
      | None => (obj_set articlePath (Value JNull) results, env)
      end
  | (None, env) => (obj_set articlePath (Value JNull) results, env)
  end.

(** [JSON.stringify(results)]: the properties that are not [undefined],
    in order. *)
Definition stringify (results : list (string * property)) : json :=
  JObj (omap (fun kv => match snd kv with
                        | Value j => Some (fst kv, j)
                        | Undefined => None
                        end) results).

(** [async fetch(request, env)] *)
Definition fetch (request : Request) (env : Env) : Outcome * Env :=
  if String.eqb (method request) "OPTIONS" then
    (Returned (new_Response BodyNull cors_headers), env)
  else
    match host request with
    | None | Some EmptyString => (Returned (bad_request "Missing Host header"), env)
    | Some requestHost =>
        if String.eqb (pathname request) "/batch" then
          if negb (String.eqb (method request) "POST") then
            (Returned (mkResponse (BodyText "Method Not Allowed") 405
                         (obj_spread cors_headers [("Allow", "POST, OPTIONS")])), env)
          else
            match read_articlePaths (payload request) with
            | inl message =>
                (Returned (bad_request ("Invalid request body: " +:+ message)), env)
            | inr articlePaths =>
                let '(results, env) :=
                  fold_left (lookup requestHost) (path_strings articlePaths) ([], env) in
                (Returned (new_Response (BodyJson (stringify results))
                             (obj_spread [("Content-Type", "application/json")] cors_headers)),
                 env)
            end
        else
          let articlePath := pathname request in
          if String.eqb articlePath "/" || String.eqb articlePath "/batch" then
            (Returned (bad_request
               "Invalid article path. Please provide a specific article path (e.g., /article/1)."),
             env)
          else
            let doIdName := doIdName requestHost articlePath in
            match stub_fetch doIdName (new_Request articlePath (method request)) env with
            | (Some response, env) =>
                (Returned (mkResponse (body response) (status response)
                             (obj_spread (headers_entries (headers response)) cors_headers)),
                 env)
            | (None, env) => (Thrown, env)
            end
    end.

End Worker.

(** ** Vocabulary of the statements *)

Section Vocabulary.
Import Worker.

(** The response the router builds from the object's response:
    [new Response(response.body, { status, headers })]. *)
Definition relay (response : Response) : Response :=
  mkResponse (body response) (status response)
    (obj_spread (headers_entries (headers response)) cors_headers).

(** The mapping a batch response carries: the properties of the JSON
    object in its body. *)
Definition mapping (out : Outcome) : list (string * json) :=
  match out with
  | Returned response =>
      match body response with
      | BodyJson (JObj fields) => fields
      | _ => []
      end
  | Thrown => []
  end.

(** A body that is an array of non-empty strings. *)
Definition nonempty_string (j : json) : bool :=
  match j with
  | JStr s => negb (String.eqb s "")
  | _ => false
  end.

Definition array_of_nonempty_strings (b : RequestBody) : bool :=
  match b with
  | Parsed (JArr items) => forallb nonempty_string items
  | _ => false
  end.

(** The name of the counter of a tenant's path. *)
Definition counter_name (requestHost path : string) : string :=
  doIdName requestHost (articlePath_of path).

(** What the lookup of the counter [name] yields when it is the call
    number [time] and the records are those of [env]: its durable value,
    or [null] when the call rejects. *)
Definition entry (env : Env) (time : nat) (name : string) : json :=
  match fate env time name with
  | Delivered => JNum (durable env name)
  | _ => JNull
  end.

(** The writes of a batch over [paths], the first lookup being the call
    number [time]: the key and the value of each. *)
Fixpoint lookups (env : Env) (requestHost : string) (time : nat) (paths : list string)
  : list (string * json) :=
  match paths with
  | [] => []
  | path :: rest =>
      (articlePath_of path, entry env time (counter_name requestHost path))
      :: lookups env requestHost (S time) rest
  end.

(** The mapping of a batch over [paths]. *)
Definition answers (env : Env) (requestHost : string) (paths : list string)
  : list (string * json) :=
  obj_spread [] (lookups env requestHost (length (calls env)) paths).

(** Two environments with the same stored records and the same fates. *)
Definition same_counters (env env' : Env) : Prop :=
  fate env' = fate env
  /\ forall name, stored env' name = stored env name.

(** An environment in which nothing is stored and every call is answered;
    two in which one call of a batch is dropped, the first or the second;
    and one in which the counter of [a.com/x] has reached 2^53. *)
Definition fresh : Env := mkEnv ∅ (fun _ _ => Delivered) [].
Definition saturated : Env :=
  mkEnv {["a.com/x" := ViewCounterDO.mk 9007199254740992
                         {["views" := 9007199254740992]}]}
        (fun _ _ => Delivered) [].

(** A host name in which no slash occurs. *)
Fixpoint no_slash (s : string) : bool :=
  match s with
  | EmptyString => true
  | String c rest => negb (Ascii.eqb c "/"%char) && no_slash rest
  end.

(** A text made of the one-byte white space only. *)
Fixpoint ascii_blank (s : string) : bool :=
  match s with
  | EmptyString => true
  | String c rest => ws1 (N_of_ascii c) && ascii_blank rest
  end.

(** An item of a batch that the check lets through: a string that is not
    blank. *)
Definition good_item (j : json) : Prop :=
  exists s, j = JStr s /\ trim_is_empty s = false.

(** Requests handled one after the other; the environment they leave. *)
Definition serve (requests : list Request) (env : Env) : Env :=
  fold_left (fun e request => snd (fetch request e)) requests env.

(** A request that is a POST for the counter [name]: a POST with a host,
    on a path other than [/] and [/batch], whose host and path make up
    [name]. *)
Definition posts_to (name : string) (request : Request) : bool :=
  String.eqb (method request) "POST"
  && match host request with
     | Some requestHost =>
         negb (String.eqb requestHost "")
         && negb (String.eqb (pathname request) "/")
         && negb (String.eqb (pathname request) "/batch")
         && String.eqb (doIdName requestHost (pathname request)) name
     | None => false
     end.

(** How many of [requests] are POSTs for the counter [name]. *)
Definition posts_count (name : string) (requests : list Request) : Z :=
  Z.of_nat (length (filter (fun request => posts_to name request = true) requests)).

(** A request of tenant [a.com]. *)
Definition request_of (m path : string) (b : RequestBody) : Request :=
  mkRequest m (Some "a.com") path b.
End Vocabulary.

(** * Properties *)

(** ** Plain objects and strings *)

Section PlainObjectFacts.
Context {V : Type}.
Implicit Types (o : list (string * V)) (k : string) (v : V).

Lemma obj_get_set_eq k v o : obj_get k (obj_set k v o) = Some v.
Proof.
  induction o as [| [k' v'] o IH]; simpl.
  - rewrite String.eqb_refl. reflexivity.
  - destruct (String.eqb k' k) eqn:E; simpl.
    + rewrite String.eqb_refl. reflexivity.
    + rewrite E. exact IH.
Qed.

Lemma obj_get_set_ne k k' v o : k <> k' -> obj_get k' (obj_set k v o) = obj_get k' o.
Proof.
  intros Hne. induction o as [| [k0 v0] o IH]; simpl.
  - apply String.eqb_neq in Hne. rewrite Hne. reflexivity.
  - destruct (String.eqb_spec k0 k) as [-> | Hk]; simpl.
    + apply String.eqb_neq in Hne. rewrite Hne. reflexivity.
    + destruct (String.eqb k0 k'); [reflexivity | exact IH].
Qed.





Lemma obj_get_None k o : obj_get k o = None <-> k ∉ o.*1.
Proof.
  induction o as [| [k' v'] o IH]; simpl.
  - split; [intros _ H; inversion H | reflexivity].
  - rewrite not_elem_of_cons. destruct (String.eqb_spec k' k) as [-> | Hk].
    + split; [discriminate | intros [H _]; contradiction].
    + rewrite IH. split; [intros H; split; [congruence | exact H] | intros [_ H]; exact H].
Qed.
End PlainObjectFacts.

Section StringFacts.
Lemma length_append (s1 s2 : string) :
  String.length (s1 +:+ s2) = (String.length s1 + String.length s2)%nat.
Proof. induction s1 as [| c s1 IH]; simpl; [reflexivity | rewrite IH; reflexivity]. Qed.

(** Two texts that differ still differ after the same text is appended to
    both. *)
Lemma append_inj_l (s1 s2 t : string) : s1 +:+ t = s2 +:+ t -> s1 = s2.
Proof.
  revert s2. induction s1 as [| c s1 IH]; intros [| d s2] H; simpl in H.
  - reflexivity.
  - apply (f_equal String.length) in H. rewrite !length_append in H. simpl in H. lia.
  - apply (f_equal String.length) in H. rewrite !length_append in H. simpl in H. lia.
  - injection H as -> H. f_equal. apply IH. exact H.
Qed.
End StringFacts.


(** ** Numbers *)

Section Numbers.
(** [++] is exact from -2^53 up to, and not at, 2^53. *)
Lemma number_succ_exact (v : Z) :
  - 2 ^ 53 <= v -> v < 2 ^ 53 -> number_succ v = v + 1.
Proof.
  intros Hlo Hhi. unfold number_succ, round_number.
  destruct (Z.leb_spec (Z.abs (v + 1)) (2 ^ 53)) as [_ | H]; [reflexivity |].
  change (2 ^ 53) with 9007199254740992 in *. lia.
Qed.

(** At 2^53 it changes nothing; two further it adds two. *)
Lemma number_succ_stuck : number_succ (2 ^ 53) = 2 ^ 53.
Proof. reflexivity. Qed.

Lemma number_succ_jumps : number_succ (2 ^ 53 + 2) = 2 ^ 53 + 4.
Proof. reflexivity. Qed.
End Numbers.

(** ** The Durable Object *)

Section DurableObject.
Import ViewCounterDO.

Variable request : Request.
Variable this : t.

(** POST: the successor of the stored value is written to the field and
    to the storage, and returned. *)
Lemma fetch_POST :
  method request = "POST" ->
  fetch request this =
    (new_Response (BodyJson (views_json (number_succ (durable this)))) json_headers,
     mk (number_succ (durable this))
        (<["views" := number_succ (durable this)]> (storage this))).
Proof. intros E. unfold fetch, durable. rewrite E. reflexivity. Qed.

(** GET: the stored value is returned; only the field is refreshed. *)
Lemma fetch_GET :
  method request = "GET" ->
  fetch request this =
    (new_Response (BodyJson (views_json (durable this))) json_headers,
     mk (durable this) (storage this)).
Proof. intros E. unfold fetch, durable. rewrite E. reflexivity. Qed.

(** Any verb other than OPTIONS, POST and GET: 405 after the load. *)
Lemma fetch_other :
  method request <> "OPTIONS" -> method request <> "POST" -> method request <> "GET" ->
  fetch request this =
    (mkResponse (BodyText "Method Not Allowed") 405 json_headers,
     mk (durable this) (storage this)).
Proof.
  intros Ho Hp Hg. unfold fetch, durable.
  apply String.eqb_neq in Ho, Hp, Hg. rewrite Ho, Hp, Hg. reflexivity.
Qed.

(** Only POST writes to the storage. *)
Lemma fetch_storage :
  method request <> "POST" -> storage (snd (fetch request this)) = storage this.
Proof.
  intros Hp. unfold fetch. apply String.eqb_neq in Hp. rewrite Hp.
  destruct (String.eqb (method request) "OPTIONS"); [reflexivity |].
  destruct (String.eqb (method request) "GET"); reflexivity.
Qed.

Lemma fetch_durable_POST :
  method request = "POST" -> durable (snd (fetch request this)) = number_succ (durable this).
Proof.
  intros E. rewrite (fetch_POST E). unfold durable at 1. simpl.
  rewrite lookup_insert_eq. reflexivity.
Qed.

Lemma fetch_durable_other :
  method request <> "POST" -> durable (snd (fetch request this)) = durable this.
Proof. intros Hp. unfold durable. rewrite (fetch_storage Hp). reflexivity. Qed.
End DurableObject.

(** ** The namespace *)

Section Namespace.
Import Worker.

Lemma durable_instance (env : Env) (name : string) :
  durable env name =
  ViewCounterDO.durable (default ViewCounterDO.constructor (objects env !! name)).
Proof. unfold durable, stored. destruct (objects env !! name); reflexivity. Qed.

(** A call that is answered. *)
Lemma stub_fetch_delivered (name : string) (request : Request) (env : Env) :
  fate env (length (calls env)) name = Delivered ->
  stub_fetch name request env =
    let r := ViewCounterDO.fetch request
               (default ViewCounterDO.constructor (objects env !! name)) in
    (Some (received request (fst r)),
     mkEnv (<[name := snd r]> (objects env)) (fate env)
           (calls env ++ [(name, method request)])).
Proof.
  intros Hf. unfold stub_fetch. rewrite Hf.
  destruct (ViewCounterDO.fetch _ _). reflexivity.
Qed.

(** A call that rejects: nothing resolves. *)
Lemma stub_fetch_rejects (name : string) (request : Request) (env : Env) :
  fate env (length (calls env)) name <> Delivered ->
  fst (stub_fetch name request env) = None.
Proof.
  intros Hf. unfold stub_fetch. destruct (ViewCounterDO.fetch _ _).
  destruct (fate env (length (calls env)) name); [contradiction | reflexivity ..].
Qed.

Lemma stub_fetch_resolves (name : string) (request : Request) (env : Env)
    (response : Response) :
  fst (stub_fetch name request env) = Some response ->
  fate env (length (calls env)) name = Delivered.
Proof.
  unfold stub_fetch. destruct (ViewCounterDO.fetch _ _).
  destruct (fate env (length (calls env)) name); [reflexivity | discriminate ..].
Qed.

(** Unless the call is dropped, the object has run. *)
Lemma stub_fetch_objects (name : string) (request : Request) (env : Env) :
  fate env (length (calls env)) name <> Dropped ->
  objects (snd (stub_fetch name request env))
  = <[name := snd (ViewCounterDO.fetch request
                     (default ViewCounterDO.constructor (objects env !! name)))]>
      (objects env).
Proof.
  intros Hf. unfold stub_fetch. destruct (ViewCounterDO.fetch _ _).
  destruct (fate env (length (calls env)) name); [reflexivity | contradiction | reflexivity].
Qed.

Lemma stub_fetch_dropped (name : string) (request : Request) (env : Env) :
  fate env (length (calls env)) name = Dropped ->
  objects (snd (stub_fetch name request env)) = objects env.
Proof.
  intros Hf. unfold stub_fetch. rewrite Hf. destruct (ViewCounterDO.fetch _ _). reflexivity.
Qed.

Lemma stub_fetch_oracle (name : string) (request : Request) (env : Env) :
  fate (snd (stub_fetch name request env)) = fate env.
Proof.
  unfold stub_fetch. destruct (ViewCounterDO.fetch _ _).
  destruct (fate env (length (calls env)) name); reflexivity.
Qed.

Lemma stub_fetch_calls (name : string) (request : Request) (env : Env) :
  calls (snd (stub_fetch name request env)) = calls env ++ [(name, method request)].
Proof.
  unfold stub_fetch. destruct (ViewCounterDO.fetch _ _).
  destruct (fate env (length (calls env)) name); reflexivity.
Qed.

(** A call touches no record but that of its own name. *)
Lemma stub_fetch_stored_ne (name other : string) (request : Request) (env : Env) :
  name <> other -> stored (snd (stub_fetch name request env)) other = stored env other.
Proof.
  intros Hne. unfold stub_fetch. destruct (ViewCounterDO.fetch _ _).
  destruct (fate env (length (calls env)) name); unfold stored; simpl;
    rewrite ?lookup_insert_ne by exact Hne; reflexivity.
Qed.

(** A call that is not a POST changes no record: a counter that had none
    still has none. *)
Lemma stub_fetch_stored_read (name other : string) (request : Request) (env : Env) :
  method request <> "POST" ->
  stored (snd (stub_fetch name request env)) other = stored env other.
Proof.
  intros Hp. destruct (decide (name = other)) as [<- | Hne];
    [| apply stub_fetch_stored_ne; exact Hne].
  assert (Hran : fate env (length (calls env)) name <> Dropped ->
                 stored (snd (stub_fetch name request env)) name = stored env name).
  { intros Hd. unfold stored. rewrite stub_fetch_objects by exact Hd.
    rewrite lookup_insert_eq. simpl. rewrite (fetch_storage _ _ Hp).
    destruct (objects env !! name); reflexivity. }
  destruct (fate env (length (calls env)) name) eqn:Hf.
  - apply Hran. discriminate.
  - unfold stored. rewrite stub_fetch_dropped by exact Hf. reflexivity.
  - apply Hran. discriminate.
Qed.

Lemma stub_fetch_durable_ne (name other : string) (request : Request) (env : Env) :
  name <> other -> durable (snd (stub_fetch name request env)) other = durable env other.
Proof. intros Hne. unfold durable. rewrite stub_fetch_stored_ne by exact Hne. reflexivity. Qed.

Lemma stub_fetch_durable_read (name other : string) (request : Request) (env : Env) :
  method request <> "POST" ->
  durable (snd (stub_fetch name request env)) other = durable env other.
Proof. intros Hp. unfold durable. rewrite stub_fetch_stored_read by exact Hp. reflexivity. Qed.

(** A POST whose object runs leaves on record the successor of the
    durable value. *)
Lemma stub_fetch_stored_POST (name : string) (request : Request) (env : Env) :
  method request = "POST" -> fate env (length (calls env)) name <> Dropped ->
  stored (snd (stub_fetch name request env)) name = Some (number_succ (durable env name)).
Proof.
  intros Hp Hd. unfold stored. rewrite stub_fetch_objects by exact Hd.
  rewrite lookup_insert_eq. simpl. rewrite (fetch_POST _ _ Hp). simpl.
  rewrite lookup_insert_eq, <- durable_instance. reflexivity.
Qed.

Lemma stub_fetch_durable_POST (name : string) (request : Request) (env : Env) :
  method request = "POST" -> fate env (length (calls env)) name <> Dropped ->
  durable (snd (stub_fetch name request env)) name = number_succ (durable env name).
Proof.
  intros Hp Hd. unfold durable at 1. rewrite stub_fetch_stored_POST by assumption.
  reflexivity.
Qed.

(** A dropped call changes no record. *)
Lemma stub_fetch_stored_dropped (name other : string) (request : Request) (env : Env) :
  fate env (length (calls env)) name = Dropped ->
  stored (snd (stub_fetch name request env)) other = stored env other.
Proof. intros Hd. unfold stored. rewrite stub_fetch_dropped by exact Hd. reflexivity. Qed.

(** What a POST that is answered resolves with. *)
Lemma stub_fetch_POST_response (name : string) (request : Request) (env : Env) :
  method request = "POST" -> fate env (length (calls env)) name = Delivered ->
  fst (stub_fetch name request env)
  = Some (mkResponse (BodyJson (JObj [("views", JNum (number_succ (durable env name)))]))
            200 [("Content-Type", "application/json")]).
Proof.
  intros Hp Hf. rewrite stub_fetch_delivered by exact Hf. cbv zeta. simpl.
  rewrite (fetch_POST _ _ Hp), <- durable_instance. unfold received. rewrite Hp.
  reflexivity.
Qed.

(** Sequential calls of one request on one name. *)
Lemma iter_oracle (name : string) (request : Request) (env : Env) (n : nat) :
  fate (Nat.iter n (fun e => snd (stub_fetch name request e)) env) = fate env.
Proof.
  induction n as [| n IH]; [reflexivity |].
  rewrite Nat.iter_succ, stub_fetch_oracle. exact IH.
Qed.

Lemma iter_calls (name : string) (request : Request) (env : Env) (n : nat) :
  length (calls (Nat.iter n (fun e => snd (stub_fetch name request e)) env))
  = (length (calls env) + n)%nat.
Proof.
  induction n as [| n IH]; [simpl; lia |].
  rewrite Nat.iter_succ, stub_fetch_calls, length_app, IH. simpl. lia.
Qed.

Lemma iter_durable (name : string) (request : Request) (env : Env) (n : nat) :
  method request = "POST" ->
  - 2 ^ 53 <= durable env name -> durable env name + Z.of_nat n <= 2 ^ 53 ->
  (forall k, (k < n)%nat -> fate env (length (calls env) + k) name <> Dropped) ->
  durable (Nat.iter n (fun e => snd (stub_fetch name request e)) env) name
  = durable env name + Z.of_nat n.
Proof.
  intros Hp Hlo. induction n as [| n IH]; intros Hhi Hf; [simpl; lia |].
  rewrite Nat.iter_succ, stub_fetch_durable_POST.
  - rewrite IH by (try lia; intros k Hk; apply Hf; lia).
    rewrite number_succ_exact by lia. lia.
  - exact Hp.
  - rewrite iter_oracle, iter_calls. apply Hf. lia.
Qed.
End Namespace.

(** ** Increment *)

Section Increment.
Import Worker.

(** C1 fails as stated: once the counter of [a.com/x] holds 2^53, an
    Increment stores and returns 2^53 again, and the durable value is not
    one greater than before. *)
Lemma increment_saturates :
  fst (stub_fetch "a.com/x" (new_Request "/x" "POST") saturated)
  = Some (mkResponse (BodyJson (JObj [("views", JNum 9007199254740992)])) 200
            [("Content-Type", "application/json")])
  /\ durable saturated "a.com/x" = 9007199254740992
  /\ durable (snd (stub_fetch "a.com/x" (new_Request "/x" "POST") saturated)) "a.com/x"
     = 9007199254740992
  /\ durable (snd (stub_fetch "a.com/x" (new_Request "/x" "POST") saturated)) "a.com/x"
     <> durable saturated "a.com/x" + 1.
Proof.
  assert (Hd : durable saturated "a.com/x" = 9007199254740992) by reflexivity.
  split; [| split; [exact Hd | split]].
  - rewrite stub_fetch_POST_response by reflexivity. rewrite Hd. reflexivity.
  - rewrite stub_fetch_durable_POST by (reflexivity || discriminate). rewrite Hd.
    reflexivity.
  - rewrite stub_fetch_durable_POST by (reflexivity || discriminate). rewrite Hd.
    discriminate.
Qed.

(** C1, amended. For every partition key, as long as the counter stays
    between -2^53 and 2^53, where a JavaScript number counts exactly: each
    of [N] POSTs made in sequence and answered returns the durable value
    it found (0 when nothing was stored) plus one and leaves that new
    value on record, so that the [N] calls leave the durable value exactly
    [N] greater than before. *)
Theorem increment_counts (env : Env) (name : string) (request : Request) (N : nat) :
  method request = "POST" ->
  - 2 ^ 53 <= durable env name -> durable env name + Z.of_nat N <= 2 ^ 53 ->
  (forall k, (k < N)%nat -> fate env (length (calls env) + k) name = Delivered) ->
  (forall k, (k < N)%nat ->
     fst (stub_fetch name request
            (Nat.iter k (fun e => snd (stub_fetch name request e)) env))
     = Some (mkResponse
               (BodyJson (JObj [("views", JNum (durable env name + Z.of_nat k + 1))]))
               200 [("Content-Type", "application/json")])
     /\ stored (Nat.iter (S k) (fun e => snd (stub_fetch name request e)) env) name
        = Some (durable env name + Z.of_nat k + 1))
  /\ durable (Nat.iter N (fun e => snd (stub_fetch name request e)) env) name
     = durable env name + Z.of_nat N.
Proof.
  intros Hp Hlo Hhi Hf.
  assert (Hnd : forall k, (k < N)%nat ->
                  fate env (length (calls env) + k) name <> Dropped)
    by (intros k Hk; rewrite Hf by exact Hk; discriminate).
  split; [| apply iter_durable; assumption].
  intros k Hk.
  assert (Hk' : durable (Nat.iter k (fun e => snd (stub_fetch name request e)) env) name
                = durable env name + Z.of_nat k)
    by (apply iter_durable; try assumption; try lia; intros j Hj; apply Hnd; lia).
  assert (Hfk : fate (Nat.iter k (fun e => snd (stub_fetch name request e)) env)
                  (length (calls (Nat.iter k (fun e => snd (stub_fetch name request e)) env)))
                  name = Delivered)
    by (rewrite iter_oracle, iter_calls; apply Hf; exact Hk).
  split.
  - rewrite stub_fetch_POST_response by assumption.
    rewrite Hk', number_succ_exact by lia. reflexivity.
  - rewrite Nat.iter_succ, stub_fetch_stored_POST; [| exact Hp | rewrite Hfk; discriminate].
    rewrite Hk', number_succ_exact by lia. reflexivity.
Qed.

Lemma increment_counts_witness :
  durable (Nat.iter 3 (fun e => snd (stub_fetch "a.com/x" (new_Request "/x" "POST") e))
             fresh) "a.com/x"
  = durable fresh "a.com/x" + Z.of_nat 3.
Proof.
  refine (proj2
    (increment_counts fresh "a.com/x" (new_Request "/x" "POST") 3 _ _ _ _));
    try reflexivity; try (intros k _; reflexivity); vm_compute; discriminate.
Defined.
End Increment.

(** ** The router: requests for a single path *)

Section SinglePath.
Import Worker.

Variable request : Request.
Variable env : Env.
Variable requestHost : string.

Hypothesis Hhost : host request = Some requestHost.
Hypothesis Hpresent : requestHost <> "".

(** The single-path branch, reached by every request that is not a
    pre-flight, carries a host and names neither [/batch] nor [/]. *)
Lemma fetch_single :
  method request <> "OPTIONS" ->
  pathname request <> "/" -> pathname request <> "/batch" ->
  fetch request env =
    match stub_fetch (doIdName requestHost (pathname request))
            (new_Request (pathname request) (method request)) env with
    | (Some response, env') => (Returned (relay response), env')
    | (None, env') => (Thrown, env')
    end.
Proof.
  intros Ho Hroot Hbatch. unfold fetch.
  apply String.eqb_neq in Ho, Hroot, Hbatch. rewrite Ho, Hhost.
  destruct requestHost as [| c rest]; [contradiction |].
  rewrite Hbatch, Hroot. simpl.
  destruct (stub_fetch _ _ env) as [[response |] env']; reflexivity.
Qed.

(** The environment a single-path request leaves is the one its call
    leaves. *)
Lemma fetch_single_env :
  method request <> "OPTIONS" ->
  pathname request <> "/" -> pathname request <> "/batch" ->
  snd (fetch request env)
  = snd (stub_fetch (doIdName requestHost (pathname request))
           (new_Request (pathname request) (method request)) env).
Proof.
  intros Ho Hroot Hbatch. rewrite fetch_single by assumption.
  destruct (stub_fetch _ _ env) as [[response |] env']; reflexivity.
Qed.

(** What a single-path request whose call is answered comes to. *)
Lemma fetch_single_delivered :
  method request <> "OPTIONS" ->
  pathname request <> "/" -> pathname request <> "/batch" ->
  fate env (length (calls env)) (doIdName requestHost (pathname request)) = Delivered ->
  fst (fetch request env) =
    let inner := new_Request (pathname request) (method request) in
    let name := doIdName requestHost (pathname request) in
    let this := default ViewCounterDO.constructor (objects env !! name) in
    Returned (relay (received inner (fst (ViewCounterDO.fetch inner this)))).
Proof.
  intros Ho Hroot Hbatch Hf. rewrite fetch_single by assumption. cbv zeta.
  rewrite stub_fetch_delivered by exact Hf. reflexivity.
Qed.
End SinglePath.

(** ** Pre-flight *)

Section Preflight.
Import Worker.

(** C10. An OPTIONS request, whatever its path, its body and its Host
    header (a missing one included), is answered with the empty 200
    response under the cross-origin headers (any origin; the methods GET,
    POST and OPTIONS; the header Content-Type); the environment is left as
    it was, so no object is contacted. *)
Theorem options_answered_first (request : Request) (env : Env) :
  method request = "OPTIONS" ->
  fetch request env
  = (Returned (mkResponse BodyNull 200
                 [("Access-Control-Allow-Origin", "*");
                  ("Access-Control-Allow-Methods", "GET, POST, OPTIONS");
                  ("Access-Control-Allow-Headers", "Content-Type")]),
     env).
Proof. intros E. unfold fetch. rewrite E. reflexivity. Qed.

Lemma options_answered_first_witness :
  method (mkRequest "OPTIONS" None "/any/page" (Unparsable "")) = "OPTIONS"
  /\ fetch (mkRequest "OPTIONS" None "/any/page" (Unparsable "")) fresh
     = (Returned (mkResponse BodyNull 200
                    [("Access-Control-Allow-Origin", "*");
                     ("Access-Control-Allow-Methods", "GET, POST, OPTIONS");
                     ("Access-Control-Allow-Headers", "Content-Type")]),
        fresh).
Proof.
  split; [reflexivity |].
  apply (options_answered_first (mkRequest "OPTIONS" None "/any/page" (Unparsable "")) fresh).
  reflexivity.
Defined.
End Preflight.

(** ** Get and the other verbs on a single path *)

Section Get.
Import Worker.

Variable request : Request.
Variable env : Env.
Variable requestHost : string.

Hypothesis Hhost : host request = Some requestHost.
Hypothesis Hpresent : requestHost <> "".
Hypothesis Hroot : pathname request <> "/".
Hypothesis Hbatch : pathname request <> "/batch".

(** A single-path request never changes the record of a counter unless
    it is a POST. *)
Lemma fetch_single_stored (other : string) :
  method request <> "POST" ->
  stored (snd (fetch request env)) other = stored env other.
Proof using Hhost Hpresent Hroot Hbatch.
  intros Hp. destruct (String.eqb_spec (method request) "OPTIONS") as [Ho | Ho].
  - unfold fetch. rewrite Ho. reflexivity.
  - rewrite (fetch_single_env request env requestHost) by assumption.
    apply stub_fetch_stored_read. exact Hp.
Qed.

Lemma fetch_single_oracle :
  fate (snd (fetch request env)) = fate env.
Proof using Hhost Hpresent Hroot Hbatch.
  destruct (String.eqb_spec (method request) "OPTIONS") as [Ho | Ho].
  - unfold fetch. rewrite Ho. reflexivity.
  - rewrite (fetch_single_env request env requestHost) by assumption.
    apply stub_fetch_oracle.
Qed.

Lemma fetch_single_calls :
  method request <> "OPTIONS" ->
  calls (snd (fetch request env))
  = calls env ++ [(doIdName requestHost (pathname request), method request)].
Proof using Hhost Hpresent Hroot Hbatch.
  intros Ho. rewrite (fetch_single_env request env requestHost) by assumption.
  rewrite stub_fetch_calls. reflexivity.
Qed.

Lemma fetch_GET_outcome :
  method request = "GET" ->
  fate env (length (calls env)) (doIdName requestHost (pathname request)) = Delivered ->
  fst (fetch request env)
  = Returned (mkResponse
                (BodyJson (JObj [("views",
                                  JNum (durable env (doIdName requestHost
                                                       (pathname request))))]))
                200
                [("content-type", "application/json");
                 ("Access-Control-Allow-Origin", "*");
                 ("Access-Control-Allow-Methods", "GET, POST, OPTIONS");
                 ("Access-Control-Allow-Headers", "Content-Type")]).
Proof using Hhost Hpresent Hroot Hbatch.
  intros Hg Hf.
  rewrite (fetch_single_delivered request env requestHost) by
    (try assumption; rewrite Hg; discriminate).
  cbv zeta. rewrite fetch_GET by exact Hg. unfold received. simpl. rewrite Hg.
  rewrite <- durable_instance. reflexivity.
Qed.
End Get.

Section GetTheorems.
Import Worker.

(** C4. For every tenant and every path other than [/] and [/batch], a
    GET that is answered returns 200 with the durable value, 0 when
    nothing is stored; no stored record changes (a counter without a
    record still has none); so the first GET on an untouched counter
    returns 0, and a second GET returns what the first did. *)
Theorem get_reads_only (request : Request) (env : Env) (requestHost : string) :
  method request = "GET" ->
  host request = Some requestHost -> requestHost <> "" ->
  pathname request <> "/" -> pathname request <> "/batch" ->
  fate env (length (calls env)) (doIdName requestHost (pathname request)) = Delivered ->
  fst (fetch request env)
    = Returned (mkResponse
                  (BodyJson (JObj [("views",
                                    JNum (default 0 (stored env (doIdName requestHost
                                                                   (pathname request)))))]))
                  200
                  [("content-type", "application/json");
                   ("Access-Control-Allow-Origin", "*");
                   ("Access-Control-Allow-Methods", "GET, POST, OPTIONS");
                   ("Access-Control-Allow-Headers", "Content-Type")])
  /\ (forall other, stored (snd (fetch request env)) other = stored env other)
  /\ (stored env (doIdName requestHost (pathname request)) = None ->
      fst (fetch request env)
      = Returned (mkResponse (BodyJson (JObj [("views", JNum 0)])) 200
                    [("content-type", "application/json");
                     ("Access-Control-Allow-Origin", "*");
                     ("Access-Control-Allow-Methods", "GET, POST, OPTIONS");
                     ("Access-Control-Allow-Headers", "Content-Type")]))
  /\ (fate env (S (length (calls env))) (doIdName requestHost (pathname request))
      = Delivered ->
      fst (fetch request (snd (fetch request env))) = fst (fetch request env)).
Proof.
  intros Hg Hhost Hpresent Hroot Hbatch Hf.
  assert (Hnp : method request <> "POST") by (rewrite Hg; discriminate).
  assert (Hno : method request <> "OPTIONS") by (rewrite Hg; discriminate).
  pose proof (fetch_GET_outcome request env requestHost
                Hhost Hpresent Hroot Hbatch Hg Hf) as Hout.
  pose proof (fetch_single_stored request env requestHost
                Hhost Hpresent Hroot Hbatch) as Hst.
  split; [exact Hout |]. split; [intros other; apply Hst; exact Hnp |].
  split.
  - intros Hnone. rewrite Hout. unfold durable. rewrite Hnone. reflexivity.
  - intros Hf2. rewrite Hout.
    rewrite (fetch_GET_outcome request (snd (fetch request env)) requestHost
               Hhost Hpresent Hroot Hbatch Hg).
    + unfold durable. rewrite Hst by exact Hnp. reflexivity.
    + rewrite (fetch_single_oracle request env requestHost) by assumption.
      rewrite (fetch_single_calls request env requestHost) by assumption.
      rewrite length_app. simpl. rewrite Nat.add_1_r. exact Hf2.
Qed.

Lemma get_reads_only_witness :
  fst (fetch (request_of "GET" "/x" (Unparsable "")) saturated)
  = Returned (mkResponse (BodyJson (JObj [("views", JNum 9007199254740992)])) 200
                [("content-type", "application/json");
                 ("Access-Control-Allow-Origin", "*");
                 ("Access-Control-Allow-Methods", "GET, POST, OPTIONS");
                 ("Access-Control-Allow-Headers", "Content-Type")]).
Proof.
  refine (proj1
    (get_reads_only (request_of "GET" "/x" (Unparsable "")) saturated "a.com"
       _ _ _ _ _ _));
    solve [reflexivity | discriminate].
Defined.

(** C5 fails as stated: a DELETE on [/x] is not stopped by the router;
    it is forwarded, and the object of [a.com/x] is called. *)
Lemma delete_reaches_object :
  calls (snd (fetch (request_of "DELETE" "/x" (Unparsable "")) fresh))
  = [("a.com/x", "DELETE")]
  /\ calls (snd (fetch (request_of "DELETE" "/x" (Unparsable "")) fresh))
     <> calls fresh.
Proof. split; [reflexivity | discriminate]. Qed.

(** C5, amended. A single-path request whose verb is none of GET, POST
    and OPTIONS is forwarded by the router to the object of its key (the
    one call made), which loads its value and answers 405 "Method Not
    Allowed"; the router returns that answer, which for a HEAD comes
    without its body, and no stored record changes. *)
Theorem other_verb_rejected_by_object (request : Request) (env : Env) (requestHost : string) :
  method request <> "GET" -> method request <> "POST" -> method request <> "OPTIONS" ->
  host request = Some requestHost -> requestHost <> "" ->
  pathname request <> "/" -> pathname request <> "/batch" ->
  fate env (length (calls env)) (doIdName requestHost (pathname request)) = Delivered ->
  fst (fetch request env)
    = Returned (mkResponse
                  (if String.eqb (method request) "HEAD"
                   then BodyNull else BodyText "Method Not Allowed")
                  405
                  [("content-type", "application/json");
                   ("Access-Control-Allow-Origin", "*");
                   ("Access-Control-Allow-Methods", "GET, POST, OPTIONS");
                   ("Access-Control-Allow-Headers", "Content-Type")])
  /\ calls (snd (fetch request env))
     = calls env ++ [(doIdName requestHost (pathname request), method request)]
  /\ (forall other, stored (snd (fetch request env)) other = stored env other).
Proof.
  intros Hg Hp Ho Hhost Hpresent Hroot Hbatch Hf. split; [| split].
  - rewrite (fetch_single_delivered request env requestHost) by assumption.
    cbv zeta. rewrite fetch_other by assumption. unfold received. simpl.
    destruct (String.eqb (method request) "HEAD"); reflexivity.
  - apply fetch_single_calls; assumption.
  - intros other. apply (fetch_single_stored request env requestHost); assumption.
Qed.

Lemma other_verb_rejected_by_object_witness :
  fst (fetch (request_of "DELETE" "/x" (Unparsable "")) fresh)
  = Returned (mkResponse (BodyText "Method Not Allowed") 405
                [("content-type", "application/json");
                 ("Access-Control-Allow-Origin", "*");
                 ("Access-Control-Allow-Methods", "GET, POST, OPTIONS");
                 ("Access-Control-Allow-Headers", "Content-Type")]).
Proof.
  refine (proj1
    (other_verb_rejected_by_object (request_of "DELETE" "/x" (Unparsable "")) fresh "a.com"
       _ _ _ _ _ _ _ _));
    solve [reflexivity | discriminate].
Defined.
End GetTheorems.

(** ** The router: batch requests *)

Section Spread.
Context {V : Type}.
Implicit Types (a b : list (string * V)) (k : string) (v : V).

Lemma obj_spread_cons a kv b :
  obj_spread a (kv :: b) = obj_spread (obj_set (fst kv) (snd kv) a) b.
Proof. reflexivity. Qed.



Lemma obj_get_spread_notin b : forall a k,
  k ∉ b.*1 -> obj_get k (obj_spread a b) = obj_get k a.
Proof.
  induction b as [| [k0 v0] b IH]; intros a k Hk; [reflexivity |].
  rewrite fmap_cons in Hk. apply not_elem_of_cons in Hk as [Hne Hk].
  rewrite obj_spread_cons, IH by exact Hk. simpl in *. apply obj_get_set_ne. congruence.
Qed.

(** A key all of whose writes carry one value ends with that value. *)
Lemma obj_get_spread_all b : forall a k v,
  (forall v', (k, v') ∈ b -> v' = v) -> k ∈ b.*1 ->
  obj_get k (obj_spread a b) = Some v.
Proof.
  induction b as [| [k0 v0] b IH]; intros a k v Hall Hin; [inversion Hin |].
  rewrite obj_spread_cons. destruct (decide (k ∈ b.*1)) as [Hb | Hb].
  - apply IH; [| exact Hb]. intros v' Hv'. apply Hall. right. exact Hv'.
  - rewrite obj_get_spread_notin by exact Hb.
    rewrite fmap_cons in Hin. apply elem_of_cons in Hin as [Hk | Hk]; [| contradiction].
    simpl in Hk. subst k0. simpl.
    rewrite (Hall v0) by left. apply obj_get_set_eq.
Qed.
End Spread.

Section Batch.
Import Worker.

Lemma same_counters_refl (env : Env) : same_counters env env.
Proof. split; [reflexivity | intros; reflexivity]. Qed.

Lemma same_counters_entry (env env' : Env) (time : nat) (name : string) :
  same_counters env env' -> entry env' time name = entry env time name.
Proof.
  intros [Ho Hs]. unfold entry, durable. rewrite Ho, Hs. reflexivity.
Qed.

Lemma same_counters_lookup (env env' : Env) (name : string) :
  same_counters env env' ->
  same_counters env (snd (stub_fetch name (new_Request "/get" "GET") env')).
Proof.
  intros [Ho Hs]. split.
  - rewrite stub_fetch_oracle. exact Ho.
  - intros other. rewrite stub_fetch_stored_read by discriminate. apply Hs.
Qed.

(** One lookup: the entry of the path is written, the object is called
    with a GET. *)
Lemma lookup_spec (requestHost path : string)
    (results : list (string * property)) (env : Env) :
  lookup requestHost (results, env) path =
    (obj_set (articlePath_of path)
             (Value (entry env (length (calls env)) (counter_name requestHost path)))
             results,
     snd (stub_fetch (counter_name requestHost path) (new_Request "/get" "GET") env)).
Proof.
  unfold lookup, entry, counter_name.
  destruct (fate env (length (calls env)) (doIdName requestHost (articlePath_of path)))
    eqn:Hf.
  - rewrite stub_fetch_delivered by exact Hf. cbv zeta.
    rewrite fetch_GET by reflexivity. simpl.
    rewrite <- durable_instance. reflexivity.
  - pose proof (stub_fetch_rejects (doIdName requestHost (articlePath_of path))
                  (new_Request "/get" "GET") env) as Hnone.
    rewrite Hf in Hnone.
    destruct (stub_fetch _ _ env) as [o env'].
    simpl in Hnone. rewrite Hnone by discriminate. reflexivity.
  - pose proof (stub_fetch_rejects (doIdName requestHost (articlePath_of path))
                  (new_Request "/get" "GET") env) as Hnone.
    rewrite Hf in Hnone.
    destruct (stub_fetch _ _ env) as [o env'].
    simpl in Hnone. rewrite Hnone by discriminate. reflexivity.
Qed.

(** All lookups of a batch, in terms of the environment before it. *)
Lemma lookups_spec (requestHost : string) (paths : list string) :
  forall (results : list (string * property)) (env0 env : Env),
    same_counters env0 env ->
    fst (fold_left (lookup requestHost) paths (results, env))
    = fold_left (fun r kv => obj_set (fst kv) (Value (snd kv)) r)
        (lookups env0 requestHost (length (calls env)) paths) results
    /\ same_counters env0 (snd (fold_left (lookup requestHost) paths (results, env)))
    /\ calls (snd (fold_left (lookup requestHost) paths (results, env)))
       = calls env ++ map (fun path => (counter_name requestHost path, "GET")) paths.
Proof.
  induction paths as [| path paths IH]; intros results env0 env Hsame.
  - simpl. rewrite app_nil_r. auto.
  - cbn [fold_left lookups]. rewrite lookup_spec.
    destruct (IH (obj_set (articlePath_of path)
                    (Value (entry env (length (calls env))
                              (counter_name requestHost path))) results)
                 env0
                 (snd (stub_fetch (counter_name requestHost path)
                         (new_Request "/get" "GET") env))
                 (same_counters_lookup _ _ _ Hsame)) as (Hres & Hsame' & Hcalls).
    split; [| split].
    + rewrite Hres. rewrite (same_counters_entry _ _ _ _ Hsame).
      rewrite stub_fetch_calls, length_app. simpl. rewrite Nat.add_1_r. reflexivity.
    + exact Hsame'.
    + rewrite Hcalls, stub_fetch_calls. rewrite <- app_assoc. reflexivity.
Qed.

(** Entries that are all defined print as they are. *)
Lemma stringify_defined (writes : list (string * json)) :
  forall o : list (string * json),
    fold_left (fun r kv => obj_set (fst kv) (Value (snd kv)) r) writes
              (map (fun kv => (fst kv, Value (snd kv))) o)
    = map (fun kv => (fst kv, Value (snd kv))) (obj_spread o writes).
Proof.
  induction writes as [| [k v] writes IH]; intros o; [reflexivity |].
  cbn [fold_left]. rewrite obj_spread_cons, <- IH. f_equal. simpl.
  induction o as [| [k' v'] o IHo]; simpl; [reflexivity |].
  destruct (String.eqb k' k); simpl; [reflexivity | rewrite IHo; reflexivity].
Qed.

Lemma stringify_map (o : list (string * json)) :
  stringify (map (fun kv => (fst kv, Value (snd kv))) o) = JObj o.
Proof.
  unfold stringify. f_equal.
  induction o as [| [k v] o IH]; [reflexivity |].
  simpl. f_equal. exact IH.
Qed.

(** The writes of a batch: their keys and their values. *)
Lemma lookups_keys (env : Env) (requestHost : string) (paths : list string) :
  forall time, (lookups env requestHost time paths).*1 = articlePath_of <$> paths.
Proof.
  induction paths as [| path paths IH]; intros time; [reflexivity |].
  simpl. f_equal. apply IH.
Qed.

Lemma lookups_elem (env : Env) (requestHost : string) (paths : list string) (k : string)
    (v : json) :
  forall time,
    (k, v) ∈ lookups env requestHost time paths ->
    exists i path,
      paths !! i = Some path /\ k = articlePath_of path
      /\ v = entry env (time + i) (counter_name requestHost path).
Proof.
  induction paths as [| path paths IH]; intros time Hin; [inversion Hin |].
  simpl in Hin. apply elem_of_cons in Hin as [Heq | Hin].
  - injection Heq as -> ->. exists 0%nat, path. rewrite Nat.add_0_r. auto.
  - destruct (IH _ Hin) as (i & q & Hq & Hk & Hv).
    exists (S i), q. rewrite Nat.add_succ_r. auto.
Qed.
End Batch.

Section BatchAnswers.
Import Worker.

Variable env : Env.
Variable requestHost : string.
Variable paths : list string.



(** A path all of whose lookups, its own and those of the paths with the
    same normalized form, yield one value has that value for its entry. *)
Lemma answers_get (path : string) (v : json) :
  path ∈ paths ->
  (forall i other,
     paths !! i = Some other -> articlePath_of other = articlePath_of path ->
     entry env (length (calls env) + i) (counter_name requestHost other) = v) ->
  obj_get (articlePath_of path) (answers env requestHost paths) = Some v.
Proof.
  intros Hin Hall. unfold answers. apply obj_get_spread_all.
  - intros v' Hv'. apply lookups_elem in Hv' as (i & other & Hi & Hk & ->).
    apply Hall; [exact Hi | symmetry; exact Hk].
  - rewrite lookups_keys. apply list_elem_of_fmap. exists path. auto.
Qed.
End BatchAnswers.

Section BatchRoute.
Import Worker.

Variable request : Request.
Variable env : Env.
Variable requestHost : string.

Hypothesis Hmethod : method request = "POST".
Hypothesis Hhost : host request = Some requestHost.
Hypothesis Hpresent : requestHost <> "".
Hypothesis Hpath : pathname request = "/batch".

(** The batch branch up to the check of the body. *)
Lemma fetch_batch :
  fetch request env =
    match read_articlePaths (payload request) with
    | inl message =>
        (Returned (bad_request ("Invalid request body: " +:+ message)), env)
    | inr articlePaths =>
        let st := fold_left (lookup requestHost) (path_strings articlePaths) ([], env) in
        (Returned (new_Response (BodyJson (stringify (fst st)))
                     (("Content-Type", "application/json") :: cors_headers)),
         snd st)
    end.
Proof using Hmethod Hhost Hpresent Hpath.
  unfold fetch. rewrite Hmethod, Hhost, Hpath.
  destruct requestHost as [| c rest]; [contradiction |]. simpl.
  destruct (read_articlePaths (payload request)) as [message | articlePaths];
    [reflexivity |].
  destruct (fold_left _ _ _) as [results env']. reflexivity.
Qed.

(** An accepted batch: the mapping is [answers], every object is called
    with a GET, and no stored record changes. *)
Lemma fetch_batch_accepted (articlePaths : list json) :
  read_articlePaths (payload request) = inr articlePaths ->
  fst (fetch request env)
    = Returned (mkResponse
                  (BodyJson (JObj (answers env requestHost (path_strings articlePaths))))
                  200 (("Content-Type", "application/json") :: cors_headers))
  /\ same_counters env (snd (fetch request env))
  /\ calls (snd (fetch request env))
     = calls env ++ map (fun path => (counter_name requestHost path, "GET"))
                        (path_strings articlePaths).
Proof using Hmethod Hhost Hpresent Hpath.
  intros Hread. rewrite fetch_batch, Hread. cbv zeta. cbn [fst snd].
  destruct (lookups_spec requestHost (path_strings articlePaths) [] env env
              (same_counters_refl env)) as (Hres & Hsame & Hcalls).
  split; [| split; assumption].
  rewrite Hres.
  pose proof (stringify_defined
                (lookups env requestHost (length (calls env)) (path_strings articlePaths))
                []) as Hdef.
  cbn [map] in Hdef. rewrite Hdef, stringify_map. reflexivity.
Qed.
End BatchRoute.

(** ** Validation of a batch *)

Section BatchValidation.
Import Worker.

Lemma trim_is_empty_nonempty (s : string) : trim_is_empty s = false -> s <> "".
Proof. intros H ->. discriminate H. Qed.

Lemma good_path_nonempty (path : json) : bad_path path = false -> nonempty_string path = true.
Proof.
  destruct path as [| b | n | s | items | fields]; simpl; try discriminate.
  intros H. apply trim_is_empty_nonempty in H. apply String.eqb_neq in H.
  rewrite H. reflexivity.
Qed.

(** A body the check lets through is an array of non-empty strings. *)
Lemma accepted_is_array (b : RequestBody) (articlePaths : list json) :
  read_articlePaths b = inr articlePaths ->
  b = Parsed (JArr articlePaths) /\ array_of_nonempty_strings b = true.
Proof.
  destruct b as [message | j]; simpl; [discriminate |].
  destruct j as [| b | n | s | items | fields]; try discriminate.
  destruct (existsb bad_path items) eqn:E; [discriminate |].
  intros H. injection H as <-. split; [reflexivity |]. simpl.
  apply forallb_forall. intros path Hin. apply good_path_nonempty.
  destruct (bad_path path) eqn:Eb; [| reflexivity].
  assert (existsb bad_path items = true) as E'
    by (apply existsb_exists; exists path; auto).
  congruence.
Qed.
End BatchValidation.

Section BatchTheorems.
Import Worker.

(** C7. A batch request whose body is not an array of non-empty strings
    (a body that is no JSON text included) is answered 400 with a JSON
    error, and the environment is left as it was: no object is contacted
    and no counter is touched. The empty array is accepted: 200 with the
    empty mapping. *)
Theorem malformed_batch_rejected (request : Request) (env : Env) (requestHost : string) :
  method request = "POST" ->
  host request = Some requestHost -> requestHost <> "" ->
  pathname request = "/batch" ->
  (array_of_nonempty_strings (payload request) = false ->
   exists message,
     fetch request env
     = (Returned (mkResponse (BodyJson (JObj [("error", JStr message)])) 400
                    (("Content-Type", "application/json") :: cors_headers)),
        env))
  /\ (payload request = Parsed (JArr []) ->
      fetch request env
      = (Returned (mkResponse (BodyJson (JObj [])) 200
                     (("Content-Type", "application/json") :: cors_headers)),
         env)).
Proof.
  intros Hm Hhost Hpresent Hpath.
  rewrite (fetch_batch request env requestHost Hm Hhost Hpresent Hpath). split.
  - intros Hbad. destruct (read_articlePaths (payload request)) as [message | l] eqn:E.
    + exists ("Invalid request body: " +:+ message). reflexivity.
    + apply accepted_is_array in E as [_ E]. congruence.
  - intros ->. reflexivity.
Qed.

Lemma malformed_batch_rejected_witness :
  array_of_nonempty_strings (Parsed (JArr [JStr "ok"; JNum 5])) = false
  /\ exists message,
       fetch (request_of "POST" "/batch" (Parsed (JArr [JStr "ok"; JNum 5]))) fresh
       = (Returned (mkResponse (BodyJson (JObj [("error", JStr message)])) 400
                      (("Content-Type", "application/json") :: cors_headers)),
          fresh).
Proof.
  split; [reflexivity |].
  refine (proj1 (malformed_batch_rejected
                   (request_of "POST" "/batch" (Parsed (JArr [JStr "ok"; JNum 5])))
                   fresh "a.com" _ _ _ _) _);
    solve [reflexivity | discriminate].
Defined.
End BatchTheorems.


Section BatchResults.
Import Worker.

Variable request : Request.
Variable requestHost : string.
Variable articlePaths : list json.

Hypothesis Hmethod : method request = "POST".
Hypothesis Hhost : host request = Some requestHost.
Hypothesis Hpresent : requestHost <> "".
Hypothesis Hpath : pathname request = "/batch".
Hypothesis Haccepted : read_articlePaths (payload request) = inr articlePaths.

Lemma batch_mapping (env : Env) :
  mapping (fst (fetch request env))
  = answers env requestHost (path_strings articlePaths).
Proof using Hmethod Hhost Hpresent Hpath Haccepted.
  destruct (fetch_batch_accepted request env requestHost
              Hmethod Hhost Hpresent Hpath articlePaths Haccepted) as [-> _].
  reflexivity.
Qed.

End BatchResults.

Section BatchResultTheorems.
Import Worker.







End BatchResultTheorems.

(** ** The partition key *)

Section PartitionKey.
Import Worker.

(** On a path that starts with a slash the normalization changes nothing. *)
Lemma articlePath_of_slash (path : string) :
  startsWith_slash path = true -> articlePath_of path = path.
Proof. intros H. unfold articlePath_of. rewrite H. reflexivity. Qed.

Lemma articlePath_of_starts (path : string) :
  startsWith_slash (articlePath_of path) = true.
Proof.
  unfold articlePath_of. destruct (startsWith_slash path) eqn:E; [exact E | reflexivity].
Qed.

(** Different hosts have different keys for the same path. *)
Lemma doIdName_host_inj (h1 h2 articlePath : string) :
  doIdName h1 articlePath = doIdName h2 articlePath -> h1 = h2.
Proof. apply append_inj_l. Qed.

(** A request changes no stored record but, at most, that of the key
    made of its own host and path. *)
Lemma fetch_stored_other (request : Request) (env : Env) (name : string) :
  (forall h, host request = Some h -> name <> doIdName h (pathname request)) ->
  stored (snd (fetch request env)) name = stored env name.
Proof.
  intros Hname. unfold fetch.
  destruct (String.eqb (method request) "OPTIONS"); [reflexivity |].
  destruct (host request) as [[| c h] |] eqn:Hh; [reflexivity | | reflexivity].
  destruct (String.eqb (pathname request) "/batch").
  - destruct (negb (String.eqb (method request) "POST")); [reflexivity |].
    destruct (read_articlePaths (payload request)) as [message | articlePaths];
      [reflexivity |].
    destruct (lookups_spec (String c h) (path_strings articlePaths) [] env env
                (same_counters_refl env)) as (_ & [_ Hst] & _).
    destruct (fold_left _ _ _) as [results env']. apply Hst.
  - destruct (String.eqb (pathname request) "/"); [reflexivity |]. cbn [orb].
    pose proof (stub_fetch_stored_ne (doIdName (String c h) (pathname request)) name
                  (new_Request (pathname request) (method request)) env) as Hne.
    destruct (stub_fetch _ _ env) as [[response |] env']; simpl in *;
      apply Hne; intros E; apply (Hname (String c h) eq_refl); symmetry; exact E.
Qed.

(** C3. The counter of a request is named by its host followed by its
    normalized path, the path itself when it starts with a slash and the
    path after a slash when it does not: a single-path request, whose path
    is that of a URL and starts with a slash, calls the object named by
    the host and the path and no other; a batch calls, for each of its
    paths, the object named by the host and the normalized path. For one
    path, two different hosts give two different names, and whatever a
    request of one host does, the stored record of the same path under
    another host is what it was. *)
Theorem tenants_do_not_share (request : Request) (env : Env) (h1 h2 : string) :
  host request = Some h1 -> h1 <> "" -> h1 <> h2 ->
  startsWith_slash (pathname request) = true ->
  (forall path,
     counter_name h1 path
     = h1 +:+ (if startsWith_slash path then path else "/" +:+ path))
  /\ (method request <> "OPTIONS" ->
      pathname request <> "/" -> pathname request <> "/batch" ->
      calls (snd (fetch request env))
      = calls env ++ [(h1 +:+ pathname request, method request)])
  /\ (forall articlePaths,
        method request = "POST" -> pathname request = "/batch" ->
        read_articlePaths (payload request) = inr articlePaths ->
        calls (snd (fetch request env))
        = calls env
          ++ map (fun path =>
                    (h1 +:+ (if startsWith_slash path then path else "/" +:+ path), "GET"))
                 (path_strings articlePaths))
  /\ h1 +:+ pathname request <> h2 +:+ pathname request
  /\ stored (snd (fetch request env)) (h2 +:+ pathname request)
     = stored env (h2 +:+ pathname request).
Proof.
  intros Hhost Hpresent Hne Hslash.
  split; [reflexivity |]. split; [| split; [| split]].
  - intros Ho Hroot Hbatch.
    apply (fetch_single_calls request env h1); assumption.
  - intros articlePaths Hm Hpath Hacc.
    apply (fetch_batch_accepted request env h1 Hm Hhost Hpresent Hpath articlePaths Hacc).
  - intros E. apply Hne. exact (append_inj_l _ _ _ E).
  - apply fetch_stored_other. intros h Hh. rewrite Hhost in Hh. injection Hh as <-.
    intros E. apply Hne. symmetry. exact (append_inj_l _ _ _ E).
Qed.

Lemma tenants_do_not_share_witness :
  stored (snd (fetch (request_of "POST" "/x" (Unparsable "")) fresh)) "b.com/x"
  = stored fresh "b.com/x"
  /\ calls (snd (fetch (request_of "POST" "/batch" (Parsed (JArr [JStr "x"; JStr "/y"])))
                   fresh))
     = [("a.com/x", "GET"); ("a.com/y", "GET")].
Proof.
  split.
  - refine (proj2 (proj2 (proj2 (proj2
      (tenants_do_not_share (request_of "POST" "/x" (Unparsable "")) fresh "a.com" "b.com"
         _ _ _ _)))));
      solve [reflexivity | discriminate].
  - refine (proj1 (proj2 (proj2
      (tenants_do_not_share
         (request_of "POST" "/batch" (Parsed (JArr [JStr "x"; JStr "/y"]))) fresh
         "a.com" "b.com" _ _ _ _))) [JStr "x"; JStr "/y"] _ _ _);
      solve [reflexivity | discriminate].
Defined.
End PartitionKey.

(** ** The reserved paths *)

Section ReservedPaths.
Import Worker.

(** C6 fails as stated: a GET on [/batch] is answered 405 with a plain
    text, not 400 with a JSON error. *)
Lemma get_batch_is_405 :
  fst (fetch (request_of "GET" "/batch" (Unparsable "")) fresh)
  = Returned (mkResponse (BodyText "Method Not Allowed") 405
                (cors_headers ++ [("Allow", "POST, OPTIONS")]))
  /\ ~ (exists response,
          fst (fetch (request_of "GET" "/batch" (Unparsable "")) fresh) = Returned response
          /\ status response = 400).
Proof.
  split; [reflexivity |]. intros (response & E & Hs).
  injection E as <-. discriminate Hs.
Qed.

(** C6, amended. A request on the root path that is not a pre-flight is
    answered 400 with a JSON error and the environment is left as it
    was, so no object is contacted. A request on [/batch] never takes
    the single-path branch: with a host and a verb that is neither POST
    nor OPTIONS it is answered 405 "Method Not Allowed" in plain text,
    again without contacting any object. *)
Theorem reserved_paths_not_dispatched (request : Request) (env : Env) :
  method request <> "OPTIONS" ->
  (pathname request = "/" ->
   exists message,
     fetch request env
     = (Returned (mkResponse (BodyJson (JObj [("error", JStr message)])) 400
                    (("Content-Type", "application/json") :: cors_headers)),
        env))
  /\ (pathname request = "/batch" -> method request <> "POST" ->
      forall requestHost, host request = Some requestHost -> requestHost <> "" ->
      fetch request env
      = (Returned (mkResponse (BodyText "Method Not Allowed") 405
                     (cors_headers ++ [("Allow", "POST, OPTIONS")])),
         env)).
Proof.
  intros Ho. apply String.eqb_neq in Ho. split.
  - intros Hpath. unfold fetch. rewrite Ho, Hpath.
    destruct (host request) as [[| c h] |]; eexists; reflexivity.
  - intros Hpath Hp requestHost Hhost Hpresent. unfold fetch.
    apply String.eqb_neq in Hp. rewrite Ho, Hhost, Hpath, Hp.
    destruct requestHost; [contradiction | reflexivity].
Qed.

Lemma reserved_paths_not_dispatched_witness :
  exists message,
    fetch (request_of "POST" "/" (Unparsable "")) fresh
    = (Returned (mkResponse (BodyJson (JObj [("error", JStr message)])) 400
                   (("Content-Type", "application/json") :: cors_headers)),
       fresh).
Proof.
  refine (proj1 (reserved_paths_not_dispatched
                   (request_of "POST" "/" (Unparsable "")) fresh _) _);
    solve [reflexivity | discriminate].
Defined.
End ReservedPaths.

(** * Further properties of the two handlers *)

(** ** The routes of the Worker *)

Section Routes.
Import Worker.

(** Every request takes one of three routes: it is answered by the router
    alone, which leaves the environment as it was; it is an accepted
    batch; or it is forwarded to the object of its host and path. *)
Lemma fetch_routes (request : Request) (env : Env) :
  (snd (fetch request env) = env
   /\ exists response, fst (fetch request env) = Returned response)
  \/ (exists requestHost articlePaths,
        method request = "POST" /\ host request = Some requestHost
        /\ requestHost <> "" /\ pathname request = "/batch"
        /\ read_articlePaths (payload request) = inr articlePaths)
  \/ (exists requestHost,
        method request <> "OPTIONS" /\ host request = Some requestHost
        /\ requestHost <> "" /\ pathname request <> "/"
        /\ pathname request <> "/batch").
Proof.
  unfold fetch.
  destruct (String.eqb_spec (method request) "OPTIONS") as [Ho | Ho];
    [left; split; [reflexivity | eexists; reflexivity] |].
  destruct (host request) as [[| c h] |] eqn:Hh;
    [left; split; [reflexivity | eexists; reflexivity] | |
     left; split; [reflexivity | eexists; reflexivity]].
  destruct (String.eqb_spec (pathname request) "/batch") as [Hb | Hb].
  - destruct (String.eqb_spec (method request) "POST") as [Hp | Hp]; simpl;
      [| left; split; [reflexivity | eexists; reflexivity]].
    destruct (read_articlePaths (payload request)) as [message | articlePaths] eqn:Hr;
      [left; split; [reflexivity | eexists; reflexivity] |].
    right; left. exists (String c h), articlePaths. repeat split; try assumption.
    discriminate.
  - destruct (String.eqb_spec (pathname request) "/") as [Hr | Hr]; simpl;
      [left; split; [reflexivity | eexists; reflexivity] |].
    right; right. exists (String c h). repeat split; try assumption. discriminate.
Qed.

(** The headers of every response of the object. *)
Lemma object_headers (request : Request) (this : ViewCounterDO.t) :
  headers (fst (ViewCounterDO.fetch request this)) = ViewCounterDO.json_headers.
Proof.
  unfold ViewCounterDO.fetch.
  destruct (String.eqb (method request) "OPTIONS"); [reflexivity |].
  destruct (String.eqb (method request) "POST"); [reflexivity |].
  destruct (String.eqb (method request) "GET"); reflexivity.
Qed.

(** What [stub.fetch] resolves to carries the headers of the object. *)
Lemma stub_fetch_Some (name : string) (request : Request) (env : Env) (response : Response) :
  fst (stub_fetch name request env) = Some response ->
  headers response = ViewCounterDO.json_headers.
Proof.
  intros H. pose proof (stub_fetch_resolves _ _ _ _ H) as Hf.
  rewrite stub_fetch_delivered in H by exact Hf. cbv zeta in H. simpl in H.
  injection H as <-. unfold received.
  destruct (String.eqb (method request) "HEAD"); simpl; apply object_headers.
Qed.

(** No request changes the fates. *)
Lemma fetch_oracle (request : Request) (env : Env) :
  fate (snd (fetch request env)) = fate env.
Proof.
  destruct (fetch_routes request env)
    as [[-> _] | [(h & l & Hm & Hh & Hne & Hb & Hr) | (h & Ho & Hh & Hne & Hr & Hb)]].
  - reflexivity.
  - destruct (fetch_batch_accepted request env h Hm Hh Hne Hb l Hr) as (_ & [Hor _] & _).
    exact Hor.
  - rewrite (fetch_single_env request env h Hh Hne Ho Hr Hb). apply stub_fetch_oracle.
Qed.
End Routes.

(** ** Requests without a host, and requests that fail *)

Section HostAndFailure.
Import Worker.

(** X1. A request that is not a pre-flight and carries no Host header, or
    an empty one, is answered 400 "Missing Host header" whatever its verb,
    path and body (the batch path included); the environment is left as it
    was. *)
Theorem missing_host_rejected (request : Request) (env : Env) :
  method request <> "OPTIONS" ->
  host request = None \/ host request = Some "" ->
  fetch request env
  = (Returned (mkResponse (BodyJson (JObj [("error", JStr "Missing Host header")])) 400
                 (("Content-Type", "application/json") :: cors_headers)),
     env).
Proof.
  intros Ho Hh. apply String.eqb_neq in Ho. unfold fetch. rewrite Ho.
  destruct Hh as [-> | ->]; reflexivity.
Qed.

Lemma missing_host_rejected_witness :
  fetch (mkRequest "POST" None "/batch" (Parsed (JArr [JStr "/x"]))) fresh
  = (Returned (mkResponse (BodyJson (JObj [("error", JStr "Missing Host header")])) 400
                 (("Content-Type", "application/json") :: cors_headers)),
     fresh).
Proof.
  apply (missing_host_rejected (mkRequest "POST" None "/batch" (Parsed (JArr [JStr "/x"])))
           fresh); [discriminate | left; reflexivity].
Defined.

(** X4. The handler throws exactly when the call that a single-path
    request makes to its object rejects: the router forwards that
    rejection. A request on [/batch] always returns a response, whatever
    becomes of its lookups. *)
Theorem thrown_iff_call_rejects (request : Request) (env : Env) :
  (fst (fetch request env) = Thrown
   <-> method request <> "OPTIONS"
       /\ pathname request <> "/" /\ pathname request <> "/batch"
       /\ exists requestHost,
            host request = Some requestHost /\ requestHost <> ""
            /\ fst (stub_fetch (doIdName requestHost (pathname request))
                      (new_Request (pathname request) (method request)) env) = None)
  /\ (pathname request = "/batch" ->
      exists response, fst (fetch request env) = Returned response).
Proof.
  destruct (fetch_routes request env)
    as [[_ [response Hret]] | [(h & l & Hm & Hh & Hne & Hb & Hr) | (h & Ho & Hh & Hne & Hr & Hb)]].
  - split; [| intros _; exists response; exact Hret].
    rewrite Hret. split; [discriminate |].
    intros (Ho & Hr & Hb & h & Hh & Hne & Hu).
    rewrite (fetch_single request env h Hh Hne Ho Hr Hb) in Hret.
    destruct (stub_fetch _ _ env) as [[r |] env']; [discriminate Hu | discriminate Hret].
  - destruct (fetch_batch_accepted request env h Hm Hh Hne Hb l Hr) as [E _].
    split; [| intros _; eexists; exact E].
    rewrite E. split; [discriminate | intros (_ & _ & Hnb & _); contradiction].
  - split; [| intros Hb'; contradiction].
    rewrite (fetch_single request env h Hh Hne Ho Hr Hb).
    destruct (stub_fetch _ _ env) as [[r |] env'] eqn:E; simpl.
    + split; [discriminate |].
      intros (_ & _ & _ & h' & Hh' & _ & Hu). rewrite Hh in Hh'. injection Hh' as <-.
      rewrite E in Hu. discriminate Hu.
    + split; [| reflexivity].
      intros _. repeat split; try assumption. exists h. rewrite E. auto.
Qed.
End HostAndFailure.

(** ** A POST through the router *)

Section RouterIncrement.
Import Worker.

Lemma fetch_POST_outcome (request : Request) (env : Env) (requestHost : string) :
  method request = "POST" ->
  host request = Some requestHost -> requestHost <> "" ->
  pathname request <> "/" -> pathname request <> "/batch" ->
  fate env (length (calls env)) (doIdName requestHost (pathname request)) = Delivered ->
  fst (fetch request env)
  = Returned (mkResponse
                (BodyJson (JObj [("views",
                                  JNum (number_succ
                                          (durable env (doIdName requestHost
                                                          (pathname request)))))]))
                200
                [("content-type", "application/json");
                 ("Access-Control-Allow-Origin", "*");
                 ("Access-Control-Allow-Methods", "GET, POST, OPTIONS");
                 ("Access-Control-Allow-Headers", "Content-Type")])
  /\ snd (fetch request env)
     = snd (stub_fetch (doIdName requestHost (pathname request))
              (new_Request (pathname request) "POST") env).
Proof.
  intros Hp Hhost Hpresent Hroot Hbatch Hf.
  assert (Ho : method request <> "OPTIONS") by (rewrite Hp; discriminate).
  split.
  - rewrite (fetch_single_delivered request env requestHost) by assumption.
    cbv zeta. rewrite Hp. rewrite fetch_POST by reflexivity.
    rewrite <- durable_instance. reflexivity.
  - rewrite (fetch_single_env request env requestHost) by assumption.
    rewrite Hp. reflexivity.
Qed.

(** X2. For every tenant and every path other than [/] and [/batch], and
    for a counter from -2^53 up to, and not at, 2^53: a POST that is
    answered returns 200 with the durable value plus one under the JSON
    content type and the cross-origin headers; that value is then the
    stored record of the counter, the one call made is the POST to that
    counter, and the record of every other counter is what it was. *)
Theorem post_increments_one_counter (request : Request) (env : Env) (requestHost : string) :
  method request = "POST" ->
  host request = Some requestHost -> requestHost <> "" ->
  pathname request <> "/" -> pathname request <> "/batch" ->
  fate env (length (calls env)) (doIdName requestHost (pathname request)) = Delivered ->
  - 2 ^ 53 <= durable env (doIdName requestHost (pathname request)) ->
  durable env (doIdName requestHost (pathname request)) < 2 ^ 53 ->
  fst (fetch request env)
  = Returned (mkResponse
                (BodyJson (JObj [("views",
                                  JNum (durable env (doIdName requestHost (pathname request))
                                        + 1))]))
                200
                [("content-type", "application/json");
                 ("Access-Control-Allow-Origin", "*");
                 ("Access-Control-Allow-Methods", "GET, POST, OPTIONS");
                 ("Access-Control-Allow-Headers", "Content-Type")])
  /\ stored (snd (fetch request env)) (doIdName requestHost (pathname request))
     = Some (durable env (doIdName requestHost (pathname request)) + 1)
  /\ calls (snd (fetch request env))
     = calls env ++ [(doIdName requestHost (pathname request), "POST")]
  /\ (forall other, other <> doIdName requestHost (pathname request) ->
        stored (snd (fetch request env)) other = stored env other).
Proof.
  intros Hp Hhost Hpresent Hroot Hbatch Hf Hlo Hhi.
  destruct (fetch_POST_outcome request env requestHost Hp Hhost Hpresent Hroot Hbatch Hf)
    as [Hout Henv].
  rewrite number_succ_exact in Hout by assumption.
  split; [exact Hout |]. rewrite Henv. split; [| split].
  - rewrite stub_fetch_stored_POST; [| reflexivity | rewrite Hf; discriminate].
    rewrite number_succ_exact by assumption. reflexivity.
  - apply stub_fetch_calls.
  - intros other Hne. apply stub_fetch_stored_ne. congruence.
Qed.

Lemma post_increments_one_counter_witness :
  stored (snd (fetch (request_of "POST" "/x" (Unparsable "")) fresh)) "a.com/x" = Some 1.
Proof.
  refine (proj1 (proj2
    (post_increments_one_counter (request_of "POST" "/x" (Unparsable "")) fresh "a.com"
       _ _ _ _ _ _ _ _)));
    solve [reflexivity | discriminate | vm_compute; discriminate].
Defined.

(** X3. For a counter from -2^53 up to, and not at, 2^53, a GET that
    follows a POST on the same host and path, both answered, returns the
    value the POST returned: the value found by the POST plus one. *)
Theorem get_after_post (post get : Request) (env : Env) (requestHost : string) :
  method post = "POST" -> method get = "GET" ->
  host post = Some requestHost -> host get = Some requestHost -> requestHost <> "" ->
  pathname get = pathname post ->
  pathname post <> "/" -> pathname post <> "/batch" ->
  fate env (length (calls env)) (doIdName requestHost (pathname post)) = Delivered ->
  fate env (S (length (calls env))) (doIdName requestHost (pathname post)) = Delivered ->
  - 2 ^ 53 <= durable env (doIdName requestHost (pathname post)) ->
  durable env (doIdName requestHost (pathname post)) < 2 ^ 53 ->
  exists v headers,
    fst (fetch post env)
    = Returned (mkResponse (BodyJson (JObj [("views", JNum v)])) 200 headers)
    /\ fst (fetch get (snd (fetch post env)))
       = Returned (mkResponse (BodyJson (JObj [("views", JNum v)])) 200 headers)
    /\ v = durable env (doIdName requestHost (pathname post)) + 1.
Proof.
  intros Hp Hg Hhp Hhg Hpresent Hsame Hroot Hbatch Hf Hf2 Hlo Hhi.
  destruct (fetch_POST_outcome post env requestHost Hp Hhp Hpresent Hroot Hbatch Hf)
    as [Hout Henv].
  rewrite number_succ_exact in Hout by assumption.
  eexists _, _. split; [exact Hout |]. split; [| reflexivity].
  rewrite (fetch_GET_outcome get (snd (fetch post env)) requestHost Hhg Hpresent).
  - rewrite Hsame, Henv.
    rewrite stub_fetch_durable_POST; [| reflexivity | rewrite Hf; discriminate].
    rewrite number_succ_exact by assumption. reflexivity.
  - rewrite Hsame. exact Hroot.
  - rewrite Hsame. exact Hbatch.
  - exact Hg.
  - rewrite Hsame, Henv, stub_fetch_oracle, stub_fetch_calls, length_app. simpl.
    rewrite Nat.add_1_r. exact Hf2.
Qed.

Lemma get_after_post_witness :
  exists v headers,
    fst (fetch (request_of "POST" "/x" (Unparsable "")) fresh)
    = Returned (mkResponse (BodyJson (JObj [("views", JNum v)])) 200 headers)
    /\ fst (fetch (request_of "GET" "/x" (Unparsable ""))
              (snd (fetch (request_of "POST" "/x" (Unparsable "")) fresh)))
       = Returned (mkResponse (BodyJson (JObj [("views", JNum v)])) 200 headers)
    /\ v = durable fresh (doIdName "a.com" "/x") + 1.
Proof.
  apply (get_after_post (request_of "POST" "/x" (Unparsable ""))
           (request_of "GET" "/x" (Unparsable "")) fresh "a.com");
    solve [reflexivity | discriminate | vm_compute; discriminate].
Defined.
End RouterIncrement.

(** ** What a request can change *)

Section Changes.
Import Worker.

Lemma fetch_batch_stored (request : Request) (env : Env) (name : string) :
  pathname request = "/batch" ->
  stored (snd (fetch request env)) name = stored env name.
Proof.
  intros Hb.
  destruct (fetch_routes request env)
    as [[-> _] | [(h & l & Hm & Hh & Hne & _ & Hr) | (h & _ & _ & _ & _ & Hnb)]].
  - reflexivity.
  - destruct (fetch_batch_accepted request env h Hm Hh Hne Hb l Hr) as (_ & [_ Hst] & _).
    apply Hst.
  - contradiction.
Qed.

(** X5. A request on [/batch] changes no stored record, whatever its verb,
    its host and its body: the lookups of a batch only read. *)
Theorem batch_reads_only (request : Request) (env : Env) :
  pathname request = "/batch" ->
  forall name, stored (snd (fetch request env)) name = stored env name.
Proof. intros Hb name. apply fetch_batch_stored. exact Hb. Qed.

Lemma batch_reads_only_witness :
  stored (snd (fetch (request_of "POST" "/batch" (Parsed (JArr [JStr "/x"; JStr "y"]))) fresh))
         "a.com/x"
  = stored fresh "a.com/x".
Proof.
  apply (batch_reads_only (request_of "POST" "/batch" (Parsed (JArr [JStr "/x"; JStr "y"])))
           fresh).
  reflexivity.
Defined.

(** What one request does to one counter. *)
Lemma posts_to_spec (name : string) (request : Request) :
  posts_to name request = true
  <-> method request = "POST"
      /\ pathname request <> "/" /\ pathname request <> "/batch"
      /\ exists requestHost,
           host request = Some requestHost /\ requestHost <> ""
           /\ doIdName requestHost (pathname request) = name.
Proof.
  unfold posts_to. rewrite andb_true_iff, String.eqb_eq.
  destruct (host request) as [h |].
  - rewrite !andb_true_iff, !negb_true_iff, !String.eqb_neq, String.eqb_eq. split.
    + intros (Hm & ((Hne & Hr) & Hb) & Hk). repeat split; try assumption.
      exists h. auto.
    + intros (Hm & Hr & Hb & h' & Hh & Hne & Hk). injection Hh as <-. auto.
  - split; [intros [_ H]; discriminate H | intros (_ & _ & _ & h' & Hh & _); discriminate Hh].
Qed.

Lemma fetch_step (request : Request) (env : Env) (name : string) :
  (posts_to name request = false ->
   durable (snd (fetch request env)) name = durable env name)
  /\ (posts_to name request = true ->
      (fate env (length (calls env)) name = Dropped ->
       durable (snd (fetch request env)) name = durable env name)
      /\ (fate env (length (calls env)) name <> Dropped ->
          durable (snd (fetch request env)) name = number_succ (durable env name))).
Proof.
  destruct (fetch_routes request env)
    as [[Henv _] | [(h & l & Hm & Hh & Hne & Hb & Hr) | (h & Ho & Hh & Hne & Hr & Hb)]].
  - split; [intros _; rewrite Henv; reflexivity |].
    intros Hp. apply posts_to_spec in Hp as (Hm & Hr & Hb & h & Hh & Hne & _).
    exfalso. revert Henv. rewrite (fetch_single_env request env h Hh Hne) by
      (try assumption; rewrite Hm; discriminate).
    intros Henv. apply (f_equal calls) in Henv. rewrite stub_fetch_calls in Henv.
    apply (f_equal (@length _)) in Henv. rewrite length_app in Henv. simpl in Henv. lia.
  - split.
    + intros _. unfold durable. rewrite fetch_batch_stored by exact Hb. reflexivity.
    + intros Hp. apply posts_to_spec in Hp as (_ & _ & Hnb & _). contradiction.
  - rewrite (fetch_single_env request env h Hh Hne Ho Hr Hb). split.
    + intros Hnp.
      destruct (decide (doIdName h (pathname request) = name)) as [Hk | Hk];
        [| apply stub_fetch_durable_ne; exact Hk].
      apply stub_fetch_durable_read. intros Hm.
      assert (posts_to name request = true) as E; [| congruence].
      apply posts_to_spec. repeat split; try assumption. exists h. auto.
    + intros Hp. apply posts_to_spec in Hp as (Hm & _ & _ & h' & Hh' & _ & Hk).
      rewrite Hh in Hh'. injection Hh' as <-. rewrite Hk. split.
      * intros Hd. unfold durable. rewrite stub_fetch_stored_dropped by exact Hd.
        reflexivity.
      * intros Hd. apply stub_fetch_durable_POST; [exact Hm | exact Hd].
Qed.

(** X6. One request changes at most one counter, and, for a counter from
    -2^53 up to, and not at, 2^53, by one: after any request the counter
    has the value it had, or that value plus one, and then the request is
    a POST on the host and path that name the counter. No request lowers
    such a counter. *)
Theorem at_most_one_increment (request : Request) (env : Env) (name : string) :
  - 2 ^ 53 <= durable env name -> durable env name < 2 ^ 53 ->
  durable (snd (fetch request env)) name = durable env name
  \/ (durable (snd (fetch request env)) name = durable env name + 1
      /\ method request = "POST"
      /\ exists requestHost,
           host request = Some requestHost
           /\ name = doIdName requestHost (pathname request)).
Proof.
  intros Hlo Hhi. destruct (fetch_step request env name) as [Hno Hyes].
  destruct (posts_to name request) eqn:Hp; [| left; apply Hno; reflexivity].
  destruct (Hyes eq_refl) as [Hd Hr].
  destruct (fate env (length (calls env)) name) eqn:Hf.
  - right. rewrite Hr by discriminate. rewrite number_succ_exact by assumption.
    apply posts_to_spec in Hp as (Hm & _ & _ & h & Hh & _ & Hk).
    split; [reflexivity |]. split; [exact Hm |]. exists h. auto.
  - left. apply Hd. reflexivity.
  - right. rewrite Hr by discriminate. rewrite number_succ_exact by assumption.
    apply posts_to_spec in Hp as (Hm & _ & _ & h & Hh & _ & Hk).
    split; [reflexivity |]. split; [exact Hm |]. exists h. auto.
Qed.

Lemma at_most_one_increment_witness :
  durable (snd (fetch (request_of "POST" "/x" (Unparsable "")) fresh)) "a.com/x"
  = durable fresh "a.com/x"
  \/ (durable (snd (fetch (request_of "POST" "/x" (Unparsable "")) fresh)) "a.com/x"
      = durable fresh "a.com/x" + 1
      /\ method (request_of "POST" "/x" (Unparsable "")) = "POST"
      /\ exists requestHost,
           host (request_of "POST" "/x" (Unparsable "")) = Some requestHost
           /\ "a.com/x" = doIdName requestHost (pathname (request_of "POST" "/x" (Unparsable "")))).
Proof.
  apply (at_most_one_increment (request_of "POST" "/x" (Unparsable "")) fresh "a.com/x");
    vm_compute; solve [discriminate | reflexivity].
Defined.
End Changes.

(** ** Counters count the POSTs made for them *)

Section Counting.
Import Worker.

Lemma posts_count_cons (name : string) (request : Request) (requests : list Request) :
  posts_count name (request :: requests)
  = (if posts_to name request then 1 else 0) + posts_count name requests.
Proof.
  unfold posts_count. rewrite filter_cons.
  destruct (posts_to name request).
  - rewrite decide_True by reflexivity. simpl length. lia.
  - rewrite decide_False by discriminate. lia.
Qed.

Lemma posts_count_nonneg (name : string) (requests : list Request) :
  0 <= posts_count name requests.
Proof. unfold posts_count. lia. Qed.

(** X7. Over any sequence of requests, and as long as the counter stays
    between -2^53 and 2^53, a counter never goes down and grows by at most
    the number of POSTs made for it (requests with a host, on its path,
    other than [/] and [/batch]): no POST is applied twice, and lookups,
    other verbs and rejected requests add nothing. When no call to its
    object is dropped, it grows by exactly that number. *)
Theorem counter_counts_posts (requests : list Request) (env : Env) (name : string) :
  - 2 ^ 53 <= durable env name ->
  durable env name + posts_count name requests <= 2 ^ 53 ->
  (durable env name <= durable (serve requests env) name
   /\ durable (serve requests env) name <= durable env name + posts_count name requests)
  /\ ((forall time, fate env time name <> Dropped) ->
      durable (serve requests env) name = durable env name + posts_count name requests).
Proof.
  unfold serve. revert env.
  induction requests as [| request requests IH]; intros env Hlo Hhi.
  - unfold posts_count. simpl. split; [lia | intros _; lia].
  - cbn [fold_left]. rewrite posts_count_cons in *.
    pose proof (posts_count_nonneg name requests) as Hnn.
    destruct (fetch_step request env name) as [Hno Hyes].
    assert (Hstep : (durable (snd (fetch request env)) name = durable env name
                     \/ (posts_to name request = true
                         /\ durable (snd (fetch request env)) name = durable env name + 1))
                    /\ ((forall time, fate env time name <> Dropped) ->
                        durable (snd (fetch request env)) name
                        = durable env name + if posts_to name request then 1 else 0)).
    { destruct (posts_to name request) eqn:Hp.
      - destruct (Hyes eq_refl) as [Hd Hr].
        assert (Hs : number_succ (durable env name) = durable env name + 1)
          by (apply number_succ_exact; lia).
        split.
        + destruct (fate env (length (calls env)) name) eqn:Hf.
          * right. split; [reflexivity |]. rewrite Hr by discriminate. exact Hs.
          * left. apply Hd. reflexivity.
          * right. split; [reflexivity |]. rewrite Hr by discriminate. exact Hs.
        + intros Hnd. rewrite Hr by apply Hnd. exact Hs.
      - split; [left; apply Hno; reflexivity |].
        intros _. rewrite Hno by reflexivity. lia. }
    destruct Hstep as [Hbound Hexact].
    assert (Hlo' : - 2 ^ 53 <= durable (snd (fetch request env)) name)
      by (destruct Hbound as [-> | [_ ->]]; lia).
    assert (Hhi' : durable (snd (fetch request env)) name + posts_count name requests
                   <= 2 ^ 53).
    { destruct Hbound as [-> | [Hp ->]]; [destruct (posts_to name request); lia |].
      rewrite Hp in Hhi. lia. }
    destruct (IH (snd (fetch request env)) Hlo' Hhi') as [[Hge Hle] Heq].
    split; [split |].
    + destruct Hbound as [E | [_ E]]; rewrite E in Hge; lia.
    + destruct Hbound as [E | [Hp E]]; rewrite E in Hle;
        [destruct (posts_to name request); lia | rewrite Hp; lia].
    + intros Hnd. rewrite Heq by (rewrite fetch_oracle; exact Hnd).
      rewrite Hexact by exact Hnd. lia.
Qed.

Lemma counter_counts_posts_witness :
  durable (serve [request_of "POST" "/x" (Unparsable "");
                  request_of "GET" "/x" (Unparsable "");
                  request_of "POST" "/x" (Unparsable "");
                  request_of "POST" "/batch" (Parsed (JArr [JStr "/x"]))] fresh) "a.com/x"
  = durable fresh "a.com/x"
    + posts_count "a.com/x"
        [request_of "POST" "/x" (Unparsable "");
         request_of "GET" "/x" (Unparsable "");
         request_of "POST" "/x" (Unparsable "");
         request_of "POST" "/batch" (Parsed (JArr [JStr "/x"]))].
Proof.
  refine (proj2 (counter_counts_posts _ fresh "a.com/x" _ _) _);
    vm_compute; discriminate.
Defined.
End Counting.

(** ** Response headers *)

Section Headers.
Import Worker.

Lemma fetch_headers (request : Request) (env : Env) (response : Response) :
  fst (fetch request env) = Returned response ->
  headers response = cors_headers
  \/ headers response = ("Content-Type", "application/json") :: cors_headers
  \/ headers response = cors_headers ++ [("Allow", "POST, OPTIONS")]
  \/ headers response = ("content-type", "application/json") :: cors_headers.
Proof.
  destruct (fetch_routes request env)
    as [_ | [(h & l & Hm & Hh & Hne & Hb & Hr) | (h & Ho & Hh & Hne & Hr & Hb)]].
  - unfold fetch.
    destruct (String.eqb (method request) "OPTIONS");
      [intros H; injection H as <-; auto |].
    destruct (host request) as [[| c h] |];
      [intros H; injection H as <-; auto | | intros H; injection H as <-; auto].
    destruct (String.eqb (pathname request) "/batch").
    + destruct (negb (String.eqb (method request) "POST"));
        [intros H; injection H as <-; auto |].
      destruct (read_articlePaths (payload request)) as [message | articlePaths];
        [intros H; injection H as <-; auto |].
      destruct (fold_left _ _ _) as [results env'].
      intros H; injection H as <-; auto.
    + destruct (String.eqb (pathname request) "/"); cbn [orb];
        [intros H; injection H as <-; auto |].
      destruct (stub_fetch _ _ env) as [[inner |] env'] eqn:E; [| discriminate].
      intros H; injection H as <-. simpl.
      apply (f_equal fst) in E. simpl in E. apply stub_fetch_Some in E.
      rewrite E. auto.
  - destruct (fetch_batch_accepted request env h Hm Hh Hne Hb l Hr) as [-> _].
    intros H; injection H as <-; auto.
  - rewrite (fetch_single request env h Hh Hne Ho Hr Hb).
    destruct (stub_fetch _ _ env) as [[inner |] env'] eqn:E; [| discriminate].
    intros H; injection H as <-. simpl.
    apply (f_equal fst) in E. simpl in E. apply stub_fetch_Some in E.
    rewrite E. auto.
Qed.

(** X8. Every response the Worker returns, an error or the relayed answer
    of an object included, carries the three cross-origin headers: any
    origin, the methods GET, POST and OPTIONS, and the header
    Content-Type. *)
Theorem every_response_allows_cross_origin
    (request : Request) (env : Env) (response : Response) :
  fst (fetch request env) = Returned response ->
  obj_get "Access-Control-Allow-Origin" (headers response) = Some "*"
  /\ obj_get "Access-Control-Allow-Methods" (headers response) = Some "GET, POST, OPTIONS"
  /\ obj_get "Access-Control-Allow-Headers" (headers response) = Some "Content-Type".
Proof.
  intros H. destruct (fetch_headers request env response H) as [-> | [-> | [-> | ->]]];
    repeat split; reflexivity.
Qed.

Lemma every_response_allows_cross_origin_witness :
  obj_get "Access-Control-Allow-Origin"
    (headers (mkResponse (BodyText "Method Not Allowed") 405
                (("content-type", "application/json") :: cors_headers)))
  = Some "*".
Proof.
  refine (proj1 (every_response_allows_cross_origin
                   (request_of "DELETE" "/x" (Unparsable "")) fresh _ _)).
  reflexivity.
Defined.
End Headers.

(** ** The instance and its storage *)

Section Instance.
Import ViewCounterDO.

(** X9. The answer of the object and the storage it leaves depend on the
    storage alone, not on the field [views]: an instance that was evicted
    and rebuilt over the same storage answers as the one that stayed. *)
Theorem field_is_not_trusted (request : Request) (v v' : Z) (records : gmap string Z) :
  fst (fetch request (mk v records)) = fst (fetch request (mk v' records))
  /\ storage (snd (fetch request (mk v records)))
     = storage (snd (fetch request (mk v' records))).
Proof.
  unfold fetch. destruct (String.eqb (method request) "OPTIONS"); [split; reflexivity |].
  simpl. destruct (String.eqb (method request) "POST"); [split; reflexivity |].
  destruct (String.eqb (method request) "GET"); split; reflexivity.
Qed.

(** X10. After any request but a pre-flight the field [views] holds the
    durable value, whatever it held before; a pre-flight reads nothing and
    leaves the instance as it was. *)
Theorem field_follows_storage (request : Request) (this : t) :
  (method request <> "OPTIONS" ->
   views (snd (fetch request this)) = durable (snd (fetch request this)))
  /\ (method request = "OPTIONS" ->
      fetch request this = (mkResponse BodyNull 200 json_headers, this)).
Proof.
  split.
  - intros Ho. destruct (String.eqb_spec (method request) "POST") as [Hp | Hp].
    + rewrite (fetch_POST request this Hp). unfold durable. simpl.
      rewrite lookup_insert_eq. reflexivity.
    + destruct (String.eqb_spec (method request) "GET") as [Hg | Hg].
      * rewrite (fetch_GET request this Hg). reflexivity.
      * rewrite (fetch_other request this Ho Hp Hg). reflexivity.
  - intros Ho. unfold fetch. rewrite Ho. reflexivity.
Qed.
End Instance.

(** ** What a batch accepts *)

Section Acceptance.
Import Worker.

Lemma ascii_blank_trim (s : string) : ascii_blank s = true -> trim_is_empty s = true.
Proof.
  induction s as [| c s IH]; [reflexivity |].
  simpl. intros H. apply andb_prop in H as [Hc Hs]. rewrite Hc. apply IH. exact Hs.
Qed.

Lemma bad_path_good_item (j : json) : bad_path j = false <-> good_item j.
Proof.
  split.
  - destruct j as [| b | n | s | items | fields]; simpl; try discriminate.
    intros H. exists s. split; [reflexivity | exact H].
  - intros (s & -> & H). exact H.
Qed.

Lemma read_articlePaths_accepts (b : RequestBody) (items : list json) :
  read_articlePaths b = inr items <-> b = Parsed (JArr items) /\ Forall good_item items.
Proof.
  split.
  - destruct b as [message | j]; simpl; [discriminate |].
    destruct j as [| b | n | s | l | fields]; try discriminate.
    destruct (existsb bad_path l) eqn:E; [discriminate |].
    intros H. injection H as <-. split; [reflexivity |].
    apply Forall_forall. intros j Hin. apply bad_path_good_item.
    destruct (bad_path j) eqn:Ej; [| reflexivity].
    assert (existsb bad_path l = true) as E'
      by (apply existsb_exists; exists j; split; [apply list_elem_of_In; exact Hin | exact Ej]).
    congruence.
  - intros [-> Hall]. simpl.
    assert (existsb bad_path items = false) as ->; [| reflexivity].
    induction Hall as [| j items Hj Hall IH]; [reflexivity |].
    simpl. apply bad_path_good_item in Hj. rewrite Hj, IH. reflexivity.
Qed.

(** X11. A POST on [/batch] with a host is answered 200 exactly when its
    body is a JSON array whose items are all strings that are not blank
    (not empty and not white space only); every other body is answered
    400 with a JSON error. *)
Theorem batch_accepts_exactly (request : Request) (env : Env) (requestHost : string) :
  method request = "POST" ->
  host request = Some requestHost -> requestHost <> "" ->
  pathname request = "/batch" ->
  ((exists response, fst (fetch request env) = Returned response /\ status response = 200)
   <-> exists items, payload request = Parsed (JArr items) /\ Forall good_item items)
  /\ ((exists message, fst (fetch request env) = Returned (bad_request message))
      <-> ~ exists items, payload request = Parsed (JArr items) /\ Forall good_item items).
Proof.
  intros Hm Hhost Hpresent Hpath.
  destruct (read_articlePaths (payload request)) as [message | items] eqn:E.
  - assert (Hno : ~ exists items, payload request = Parsed (JArr items)
                                  /\ Forall good_item items).
    { intros (items & Hp & Hall).
      assert (read_articlePaths (payload request) = inr items) as E'
        by (apply read_articlePaths_accepts; auto).
      congruence. }
    rewrite (fetch_batch request env requestHost Hm Hhost Hpresent Hpath), E. simpl.
    split; split.
    + intros (response & H & Hs). injection H as <-. discriminate Hs.
    + intros H. contradiction.
    + intros _. exact Hno.
    + intros _. eexists. reflexivity.
  - assert (Hyes : exists items, payload request = Parsed (JArr items)
                                 /\ Forall good_item items)
      by (exists items; apply read_articlePaths_accepts; exact E).
    destruct (fetch_batch_accepted request env requestHost Hm Hhost Hpresent Hpath items E)
      as [-> _].
    split; split.
    + intros _. exact Hyes.
    + intros _. eexists. split; reflexivity.
    + intros (message & H). injection H as _ H. discriminate H.
    + intros H. contradiction.
Qed.

Lemma batch_accepts_exactly_witness :
  exists response,
    fst (fetch (request_of "POST" "/batch" (Parsed (JArr [JStr "/x"; JStr "y z"]))) fresh)
    = Returned response /\ status response = 200.
Proof.
  refine (proj2 (proj1 (batch_accepts_exactly
                          (request_of "POST" "/batch" (Parsed (JArr [JStr "/x"; JStr "y z"])))
                          fresh "a.com" _ _ _ _)) _);
    try solve [reflexivity | discriminate].
  exists [JStr "/x"; JStr "y z"]. split; [reflexivity |].
  repeat constructor; eexists; split; reflexivity.
Defined.

(** X12. A batch with an item made of white space only (spaces, tabs, line
    breaks), though it is a non-empty string, is rejected as a whole: 400
    with the message of the format error, and the environment is left as
    it was. *)
Theorem blank_path_rejected
    (request : Request) (env : Env) (requestHost : string) (items : list json) (s : string) :
  method request = "POST" ->
  host request = Some requestHost -> requestHost <> "" ->
  pathname request = "/batch" ->
  payload request = Parsed (JArr items) ->
  JStr s ∈ items -> ascii_blank s = true ->
  fetch request env
  = (Returned (mkResponse
                 (BodyJson (JObj [("error",
                                   JStr ("Invalid request body: " +:+ format_error))]))
                 400 (("Content-Type", "application/json") :: cors_headers)),
     env).
Proof.
  intros Hm Hhost Hpresent Hpath Hbody Hin Hblank.
  rewrite (fetch_batch request env requestHost Hm Hhost Hpresent Hpath), Hbody. simpl.
  assert (existsb bad_path items = true) as ->; [| reflexivity].
  apply existsb_exists. exists (JStr s). split; [apply list_elem_of_In; exact Hin |].
  simpl. apply ascii_blank_trim. exact Hblank.
Qed.

Lemma blank_path_rejected_witness :
  fetch (request_of "POST" "/batch" (Parsed (JArr [JStr "/x"; JStr "  "]))) fresh
  = (Returned (mkResponse
                 (BodyJson (JObj [("error",
                                   JStr ("Invalid request body: " +:+ format_error))]))
                 400 (("Content-Type", "application/json") :: cors_headers)),
     fresh).
Proof.
  apply (blank_path_rejected
           (request_of "POST" "/batch" (Parsed (JArr [JStr "/x"; JStr "  "])))
           fresh "a.com" [JStr "/x"; JStr "  "] "  ");
    try solve [reflexivity | discriminate].
  apply list_elem_of_further, list_elem_of_here.
Defined.
End Acceptance.

(** ** Names of counters *)

Section Names.
Import Worker.

Lemma startsWith_slash_cons (c : ascii) (s : string) :
  startsWith_slash (String c s) = true -> c = "/"%char.
Proof. simpl. intros H. apply Ascii.eqb_eq in H. exact H. Qed.

(** A host without a slash ends where the path begins. *)
Lemma doIdName_inj (h1 h2 p1 p2 : string) :
  no_slash h1 = true -> no_slash h2 = true ->
  startsWith_slash p1 = true -> startsWith_slash p2 = true ->
  doIdName h1 p1 = doIdName h2 p2 -> h1 = h2 /\ p1 = p2.
Proof.
  unfold doIdName. revert h2.
  induction h1 as [| c h1 IH]; intros [| d h2] Hn1 Hn2 Hs1 Hs2 E;
    unfold String.append in E; fold String.append in E.
  - split; [reflexivity | exact E].
  - subst p1. apply startsWith_slash_cons in Hs1. subst d. discriminate Hn2.
  - subst p2. apply startsWith_slash_cons in Hs2. subst c. discriminate Hn1.
  - injection E as -> E. simpl in Hn1, Hn2.
    apply andb_prop in Hn1 as [_ Hn1]. apply andb_prop in Hn2 as [_ Hn2].
    destruct (IH h2 Hn1 Hn2 Hs1 Hs2 E) as [-> ->]. split; reflexivity.
Qed.

(** X13. For hosts in which no slash occurs, the name of a counter
    determines the host and the normalized path: two tenants never share a
    counter, whatever their paths, and one tenant's paths share a counter
    only when they have the same normalized form. *)
Theorem counter_name_determines (h1 h2 p1 p2 : string) :
  no_slash h1 = true -> no_slash h2 = true ->
  counter_name h1 p1 = counter_name h2 p2 ->
  h1 = h2 /\ articlePath_of p1 = articlePath_of p2.
Proof.
  intros Hn1 Hn2. unfold counter_name.
  apply doIdName_inj; try assumption; apply articlePath_of_starts.
Qed.

Lemma counter_name_determines_witness :
  "a.com" = "a.com" /\ articlePath_of "x" = articlePath_of "/x".
Proof.
  apply (counter_name_determines "a.com" "a.com" "x" "/x"); reflexivity.
Defined.

(** X14. The normalization of a path always starts with a slash and
    normalizing twice changes nothing more; two paths have the same
    normalized form exactly when they are equal or one is the other with a
    slash put in front. *)
Theorem normalization_merges (p q : string) :
  startsWith_slash (articlePath_of p) = true
  /\ articlePath_of (articlePath_of p) = articlePath_of p
  /\ (articlePath_of p = articlePath_of q
      <-> p = q
          \/ (startsWith_slash q = false /\ p = "/" +:+ q)
          \/ (startsWith_slash p = false /\ q = "/" +:+ p)).
Proof.
  split; [apply articlePath_of_starts |].
  split; [apply articlePath_of_slash, articlePath_of_starts |].
  unfold articlePath_of.
  destruct (startsWith_slash p) eqn:Hp, (startsWith_slash q) eqn:Hq.
  - split; [auto |]. intros [H | [[H _] | [H _]]]; [exact H | discriminate H ..].
  - split; [auto |]. intros [H | [[_ H] | [H _]]]; [| exact H | discriminate H].
    subst q. congruence.
  - split; [intros H; right; right; auto |].
    intros [H | [[H _] | [_ H]]]; [| discriminate H | symmetry; exact H].
    subst q. congruence.
  - split.
    + intros H. left. injection H as H. exact H.
    + intros [H | [[_ H] | [_ H]]]; [subst q; reflexivity | |].
      * subst p. discriminate Hp.
      * subst q. discriminate Hq.
Qed.

(** X15. The counters named by a host and the paths [/] and [/batch] are
    never written: when no slash occurs in the hosts and the path of the
    request starts with a slash, as the path of a URL does, no request of
    any tenant changes the record stored under these two names. *)
Theorem reserved_counters_never_written
    (request : Request) (env : Env) (tenant reserved : string) :
  reserved = "/" \/ reserved = "/batch" ->
  no_slash tenant = true ->
  (forall requestHost, host request = Some requestHost -> no_slash requestHost = true) ->
  startsWith_slash (pathname request) = true ->
  stored (snd (fetch request env)) (doIdName tenant reserved)
  = stored env (doIdName tenant reserved).
Proof.
  intros Hres Hnt Hnh Hslash.
  destruct (fetch_routes request env)
    as [[-> _] | [(h & l & Hm & Hh & Hne & Hb & Hr) | (h & Ho & Hh & Hne & Hr & Hb)]].
  - reflexivity.
  - apply fetch_batch_stored. exact Hb.
  - apply fetch_stored_other. intros h' Hh' E.
    apply doIdName_inj in E as [_ E].
    + destruct Hres as [-> | ->]; congruence.
    + exact Hnt.
    + apply Hnh. exact Hh'.
    + destruct Hres as [-> | ->]; reflexivity.
    + exact Hslash.
Qed.

Lemma reserved_counters_never_written_witness :
  stored (snd (fetch (request_of "POST" "/batch/" (Unparsable "")) fresh))
         (doIdName "a.com" "/batch")
  = stored fresh (doIdName "a.com" "/batch").
Proof.
  apply (reserved_counters_never_written
           (request_of "POST" "/batch/" (Unparsable "")) fresh "a.com" "/batch");
    try solve [reflexivity | right; reflexivity].
  intros requestHost H. injection H as <-. reflexivity.
Defined.
End Names.

(** ** A batch and the single lookups *)

Section BatchAgreesWithGet.
Import Worker.

(** X16. A batch answers for a path what a GET on that path answers: for a
    path that starts with a slash and is neither [/] nor [/batch], the
    calls to whose counter are answered, the entry of the batch under that
    path is the number in the body of the GET, and this whichever of the
    two requests is handled first. *)
Theorem batch_agrees_with_get
    (get batch : Request) (env : Env) (requestHost : string) (articlePaths : list json) :
  method get = "GET" -> host get = Some requestHost ->
  method batch = "POST" -> host batch = Some requestHost -> requestHost <> "" ->
  pathname batch = "/batch" ->
  read_articlePaths (payload batch) = inr articlePaths ->
  pathname get ∈ path_strings articlePaths ->
  startsWith_slash (pathname get) = true ->
  pathname get <> "/" -> pathname get <> "/batch" ->
  (forall time, fate env time (doIdName requestHost (pathname get)) = Delivered) ->
  exists v,
    body <$> (match fst (fetch get env) with Returned r => Some r | Thrown => None end)
    = Some (BodyJson (JObj [("views", JNum v)]))
    /\ obj_get (pathname get) (mapping (fst (fetch batch env))) = Some (JNum v)
    /\ obj_get (pathname get) (mapping (fst (fetch batch (snd (fetch get env)))))
       = Some (JNum v)
    /\ body <$> (match fst (fetch get (snd (fetch batch env))) with
                 | Returned r => Some r
                 | Thrown => None
                 end)
       = Some (BodyJson (JObj [("views", JNum v)])).
Proof.
  intros Hg Hhg Hm Hhb Hpresent Hb Hacc Hin Hslash Hroot Hnb Hf.
  exists (durable env (doIdName requestHost (pathname get))).
  assert (Hnp : method get <> "POST") by (rewrite Hg; discriminate).
  assert (Hentry : forall e,
             fate e = fate env ->
             (forall name, stored e name = stored env name) ->
             obj_get (pathname get) (mapping (fst (fetch batch e)))
             = Some (JNum (durable env (doIdName requestHost (pathname get))))).
  { intros e Hor Hst.
    rewrite (batch_mapping batch requestHost articlePaths Hm Hhb Hpresent Hb Hacc e).
    rewrite <- (articlePath_of_slash (pathname get)) at 1 by exact Hslash.
    apply answers_get; [exact Hin |].
    intros i other _ Hsame. unfold entry, counter_name.
    rewrite Hsame, (articlePath_of_slash (pathname get)) by exact Hslash.
    rewrite Hor, Hf. unfold durable. rewrite Hst. reflexivity. }
  split; [| split; [| split]].
  - rewrite (fetch_GET_outcome get env requestHost Hhg Hpresent Hroot Hnb Hg (Hf _)).
    reflexivity.
  - apply Hentry; [reflexivity | intros; reflexivity].
  - apply Hentry.
    + apply (fetch_single_oracle get env requestHost); assumption.
    + intros name. apply (fetch_single_stored get env requestHost); assumption.
  - destruct (fetch_batch_accepted batch env requestHost Hm Hhb Hpresent Hb
                articlePaths Hacc) as (_ & [Hor Hst] & _).
    rewrite (fetch_GET_outcome get (snd (fetch batch env)) requestHost
               Hhg Hpresent Hroot Hnb Hg).
    + simpl. unfold durable. rewrite Hst. reflexivity.
    + rewrite Hor. apply Hf.
Qed.

Lemma batch_agrees_with_get_witness :
  exists v,
    obj_get "/x"
      (mapping (fst (fetch (request_of "POST" "/batch" (Parsed (JArr [JStr "/x"])))
                       fresh)))
    = Some (JNum v).
Proof.
  destruct (batch_agrees_with_get
              (request_of "GET" "/x" (Unparsable ""))
              (request_of "POST" "/batch" (Parsed (JArr [JStr "/x"])))
              fresh "a.com" [JStr "/x"]
              eq_refl eq_refl eq_refl eq_refl ltac:(discriminate) eq_refl eq_refl
              (list_elem_of_here _ _) eq_refl ltac:(discriminate) ltac:(discriminate)
              (fun _ => eq_refl)) as (v & _ & H & _).
  exists v. exact H.
Defined.
End BatchAgreesWithGet.
